(** * Operation batching session of [openpype_client/operations.py]

    A shallow embedding of the operation classes ([CreateOperation],
    [UpdateOperation], [DeleteOperation]) and of [OperationsSession]
    (ready queue, deferral map [_nested_operations], [commit]).

    Conventions of the embedding:
    - A Python [dict] with string keys is a [gmap string _]; the dict
      [operations_by_project], whose iteration order decides the order of
      the network calls, is an association list in insertion order.
    - A Python call either returns or raises: fallible code returns
      [Result A]; methods of the session run in a state monad over the
      session that also logs every request handed to the transport.
    - Values produced by the runtime ([uuid.uuid4()], [create_entity_id()],
      the identity of a new object) are explicit arguments of the
      constructors.
    - A Python [str] is a [string], one character for each code point;
      the code points are those below 256. *)

From stdpp Require Import base option list strings gmap fin_maps.
From Stdlib Require Import ZArith Ascii.

Local Open Scope string_scope.
Local Open Scope list_scope.
Local Set Warnings "-register-all".

(** ** Python values *)

(** The values that travel in entity payloads and change-sets.
    [REMOVED_VALUE] is the module-level sentinel [REMOVED_VALUE = object()],
    recognised by identity ([value is REMOVED_VALUE]). *)
Inductive value : Type :=
| VNone
| VBool (b : bool)
| VInt (n : Z)
| VStr (s : string)
| VList (l : list value)
| VDict (d : list (string * value))
| REMOVED_VALUE.

(** [value is REMOVED_VALUE] *)
Definition is_REMOVED_VALUE (v : value) : bool :=
  match v with REMOVED_VALUE => true | _ => false end.

(** ** Exceptions *)

(** What a wire rendering ([to_server_operation]) contains.  The key
    ["data"] is absent from the rendering of a delete. *)
Record ServerOperation := mkServerOperation {
  so_id : string;
  so_type : string;
  so_entityType : string;
  so_entityId : value;
  so_data : option (gmap string value)
}.

(** One entry of the ["operations"] list of a batch response. *)
Record OpResult := mkOpResult {
  or_id : string;
  or_success : bool;
  or_error : string
}.

(** The decoded body of a batch response ([result.data]).  Both keys may be
    missing: [result.get("success")] is then [None] (falsy) and
    ["operations" not in result] holds. *)
Record ResultData := mkResultData {
  rd_success : option bool;
  rd_operations : option (list OpResult)
}.

(** The two messages [commit] builds for [FailedOperations]:
    ["Operation failed. Content: {}".format(str(result))] and
    ["Operation \"{}\" failed with data:\n{}\nError: {}."] formatted with the
    operation id, the JSON text of the body found in [body_by_id] (kept
    here as the body it prints) and the entry's error. *)
Inductive FailedMessage :=
| OperationFailedContent (result : ResultData)
| OperationFailedWithData (operation_id : string) (body : ServerOperation)
    (error : string).

Inductive Exception :=
| TypeError (msg : string)
| ValueError (msg : string)
| AttributeError (msg : string)
| KeyError (key : string)
| FailedOperations (msg : FailedMessage)
| TransportFault (detail : string).

Definition Result (A : Type) : Type := Exception + A.
Abbreviation Ok a := (inr a) (only parsing).
Abbreviation Raise e := (inl e) (only parsing).

(** ** JSON encoding *)

(** What [json.dumps] can write: every value but the sentinel, which is a
    bare [object()], at any depth of a list or of a dict. *)
Fixpoint json_serializable (v : value) : bool :=
  match v with
  | REMOVED_VALUE => false
  | VList l => forallb json_serializable l
  | VDict d => forallb (fun kv => json_serializable (snd kv)) d
  | _ => true
  end.

(** A wire rendering [json.dumps] can write: its [entityId] and every
    value of its [data]; the other fields are strings. *)
Definition json_writable (body : ServerOperation) : bool :=
  json_serializable (so_entityId body)
  && match so_data body with
     | Some data =>
         forallb (fun kv => json_serializable (snd kv)) (map_to_list data)
     | None => true
     end.

(** [json.dumps(body, indent=4)].  The text it returns is a printing of
    the body, and stands here as the body itself; what it raises is the
    [TypeError] of the encoder for the sentinel. *)
Definition json_dumps (body : ServerOperation) : Result ServerOperation :=
  if json_writable body then Ok body
  else Raise (TypeError "Object of type object is not JSON serializable").

(** ** Identifier validation *)

Module Uuid.
(** Python's [uuid.UUID(hex)] (Python 3.6 and later), for a [str] whose
    characters have code points below 256, one per character of the
    string here: [hex.replace('urn:', '').replace('uuid:', '')], then
    [strip('{}')], then [replace('-', '')]; the result must have 32
    characters, [int(hex, 16)] must read it, and the number read must be
    a 128-bit value. *)

(** [s.replace(old, '')] for a non-empty [old]: occurrences are removed
    from left to right; [skip] counts the characters of a matched
    occurrence still to drop. *)
Fixpoint remove_from (old : string) (skip : nat) (s : string) : string :=
  match s with
  | EmptyString => EmptyString
  | String c s' =>
      match skip with
      | S k => remove_from old k s'
      | O =>
          if String.prefix old s
          then remove_from old (String.length old - 1) s'
          else String c (remove_from old 0 s')
      end
  end.

Definition remove_all (old s : string) : string := remove_from old 0 s.

Definition is_brace (c : ascii) : bool :=
  bool_decide (c = "{"%char) || bool_decide (c = "}"%char).

Fixpoint lstrip (l : list ascii) : list ascii :=
  match l with
  | c :: l' => if is_brace c then lstrip l' else l
  | [] => []
  end.

(** [s.strip('{}')] *)
Definition strip_braces (s : string) : string :=
  String.string_of_list_ascii
    (rev (lstrip (rev (lstrip (String.list_ascii_of_string s))))).

Definition normalize (hex : string) : string :=
  remove_all "-" (strip_braces (remove_all "uuid:" (remove_all "urn:" hex))).

(** *** [int(hex, 16)]

    The literal [int] reads in base 16: blanks around it are skipped; a
    sign may come first, then the prefix [0x] or [0X]; the digits may be
    separated by single underscores, and one underscore may follow the
    prefix. *)

(** The blanks [int] skips: tab to carriage return and space, and, of the
    characters above 127, the two Unicode spaces (NEL, no-break space). *)
Definition is_blank (c : ascii) : bool :=
  let n := Ascii.nat_of_ascii c in
  (((9 <=? n) && (n <=? 13)) || (n =? 32) || (n =? 133) || (n =? 160))%nat.

Fixpoint skip_blanks (l : list ascii) : list ascii :=
  match l with
  | c :: l' => if is_blank c then skip_blanks l' else l
  | [] => []
  end.

Definition digit_value (c : ascii) : option Z :=
  let n := Z.of_nat (Ascii.nat_of_ascii c) in
  (if (48 <=? n) && (n <=? 57) then Some (n - 48)
   else if (97 <=? n) && (n <=? 102) then Some (n - 87)
   else if (65 <=? n) && (n <=? 70) then Some (n - 55)
   else None)%Z.

Definition is_char (n : nat) (c : ascii) : bool :=
  (Ascii.nat_of_ascii c =? n)%nat.

(** Digits and single underscores up to the end; [after_underscore] tells
    that the character before was an underscore. *)
Fixpoint digits (l : list ascii) (after_underscore : bool) (acc : Z)
  : option Z :=
  match l with
  | [] => if after_underscore then None else Some acc
  | c :: rest =>
      if is_char 95 c
      then if after_underscore then None else digits rest true acc
      else match digit_value c with
           | Some d => digits rest false (16 * acc + d)%Z
           | None => None
           end
  end.

(** A run of digits, which starts with a digit. *)
Definition number (l : list ascii) : option Z :=
  match l with
  | c :: _ =>
      match digit_value c with
      | Some _ => digits l false 0%Z
      | None => None
      end
  | [] => None
  end.

(** The literal after the sign: the prefix, if any, one underscore after
    it, if any, and the digits. *)
Definition unsigned (l : list ascii) : option Z :=
  match l with
  | zero :: x :: rest =>
      if is_char 48 zero && (is_char 120 x || is_char 88 x)
      then match rest with
           | u :: rest' => if is_char 95 u then number rest' else number rest
           | [] => None
           end
      else number l
  | _ => number l
  end.

(** [int(hex, 16)]; [None] stands for its [ValueError], whose message
    [UUID] below keeps up to the literal it quotes. *)
Definition int_16 (hex : string) : option Z :=
  let l := rev (skip_blanks (rev (skip_blanks
                                   (String.list_ascii_of_string hex)))) in
  match l with
  | c :: rest =>
      if is_char 43 c then unsigned rest
      else if is_char 45 c then Z.opp <$> unsigned rest
      else unsigned l
  | [] => None
  end.

Definition UUID (hex : string) : Result unit :=
  let hex := normalize hex in
  if negb (String.length hex =? 32)%nat
  then Raise (ValueError "badly formed hexadecimal UUID string")
  else match int_16 hex with
       | None => Raise (ValueError "invalid literal for int() with base 16")
       | Some n =>
           if ((0 <=? n) && (n <? 2 ^ 128))%Z then Ok tt
           else Raise (ValueError "int is out of range (need a 128-bit value)")
       end.
End Uuid.

(** [_create_or_convert_to_id(entity_id=None)]; [new_id] is what
    [create_entity_id()] returns when it is called.  A value that is not a
    string has no [replace] method, so [uuid.UUID] fails on it. *)
Definition _create_or_convert_to_id (new_id : string) (entity_id : value)
  : Result value :=
  match entity_id with
  | VNone => Ok (VStr new_id)
  | VStr s =>
      match Uuid.UUID s with
      | inl e => Raise e
      | inr _ => Ok entity_id
      end
  | _ => Raise (AttributeError "replace")
  end.

(** ** Operations *)

(** Values the runtime supplies to a constructor: the identity of the new
    object (what [is] and the default [==] compare), the result of
    [str(uuid.uuid4())], and the result of [create_entity_id()] should the
    constructor call it. *)
Record Fresh := mkFresh {
  fresh_object : nat;
  fresh_uuid4 : string;
  fresh_entity_id : string
}.

(** The state set up by [AbstractOperation.__init__].  The back reference
    [_session] is only used by the [con] and [session] properties and is
    left out. *)
Record AbstractOperation := mkAbstractOperation {
  py_id : nat;
  _project_name : string;
  _entity_type : string;
  _id : string
}.

Definition AbstractOperation__init__ (rt : Fresh)
    (project_name entity_type : string) : AbstractOperation :=
  {| py_id := fresh_object rt;
     _project_name := project_name;
     _entity_type := entity_type;
     _id := fresh_uuid4 rt |}.

Inductive Operation :=
| CreateOperation (base : AbstractOperation) (_data : gmap string value)
| UpdateOperation (base : AbstractOperation) (_entity_id : value)
    (_update_data : gmap string value)
| DeleteOperation (base : AbstractOperation) (_entity_id : value).

Definition base_of (op : Operation) : AbstractOperation :=
  match op with
  | CreateOperation b _ | UpdateOperation b _ _ | DeleteOperation b _ => b
  end.

Definition project_name (op : Operation) : string := _project_name (base_of op).
Definition id (op : Operation) : string := _id (base_of op).
Definition entity_type (op : Operation) : string := _entity_type (base_of op).

Definition operation_name (op : Operation) : string :=
  match op with
  | CreateOperation _ _ => "create"
  | UpdateOperation _ _ _ => "update"
  | DeleteOperation _ _ => "delete"
  end.

(** [CreateOperation.__init__]: a falsy [data] ([None] or an empty dict)
    becomes [{}], anything else is copied; an id is injected when the key
    ["id"] is missing.  Nothing in the body raises.

    [copy.deepcopy(dict(data))] gives a dict equal to [data] that shares
    nothing with it; the values here are immutable, so the copy is written
    as the value itself.  The copy of the sentinel is another bare
    [object()]: it is written [REMOVED_VALUE] all the same, since no code
    of the module looks for the sentinel in the payload of a create, and
    [json.dumps] refuses the one as it refuses the other. *)
Definition CreateOperation__init__ (rt : Fresh)
    (project_name entity_type : string) (data : option (gmap string value))
  : Result Operation :=
  let data := default (∅ : gmap string value) data in
  let data :=
    match data !! "id" with
    | Some _ => data
    | None => <["id" := VStr (fresh_entity_id rt)]> data
    end in
  Ok (CreateOperation (AbstractOperation__init__ rt project_name entity_type) data).

(** [UpdateOperation.__init__]: stores its arguments. *)
Definition UpdateOperation__init__ (rt : Fresh)
    (project_name entity_type : string) (entity_id : value)
    (update_data : gmap string value) : Result Operation :=
  Ok (UpdateOperation (AbstractOperation__init__ rt project_name entity_type)
        entity_id update_data).

(** [DeleteOperation.__init__]: stores its arguments. *)
Definition DeleteOperation__init__ (rt : Fresh)
    (project_name entity_type : string) (entity_id : value) : Result Operation :=
  Ok (DeleteOperation (AbstractOperation__init__ rt project_name entity_type)
        entity_id).

(** The [entity_id] property.  For a create it is [self._data["id"]], which
    raises [KeyError] should the key have been taken out of the payload. *)
Definition entity_id (op : Operation) : Result value :=
  match op with
  | CreateOperation _ data =>
      match data !! "id" with
      | Some v => Ok v
      | None => Raise (KeyError "id")
      end
  | UpdateOperation _ eid _ | DeleteOperation _ eid => Ok eid
  end.

(** [CreateOperation.set_value] ([self.data[key] = value]); the other
    variants have no such method. *)
Definition set_value (key : string) (v : value) (op : Operation) : Operation :=
  match op with
  | CreateOperation b data => CreateOperation b (<[key := v]> data)
  | _ => op
  end.

(** The body of the loops of [UpdateOperation.to_data] and
    [UpdateOperation.to_server_operation]:
    [if value is REMOVED_VALUE: value = None]. *)
Definition removed_to_None (v : value) : value :=
  if is_REMOVED_VALUE v then VNone else v.

(** The dict returned by [to_data]; a key a variant does not set is [None].
    The payload of a create is returned as a [copy.deepcopy], written as
    the value itself (see [CreateOperation__init__]). *)
Record OperationData := mkOperationData {
  od_id : string;
  od_entity_type : string;
  od_project_name : string;
  od_operation : string;
  od_data : option (gmap string value);
  od_entity_id : option value;
  od_changes : option (gmap string value)
}.

Definition to_data (op : Operation) : OperationData :=
  let output fld_data fld_entity_id fld_changes :=
    {| od_id := id op;
       od_entity_type := entity_type op;
       od_project_name := project_name op;
       od_operation := operation_name op;
       od_data := fld_data;
       od_entity_id := fld_entity_id;
       od_changes := fld_changes |} in
  match op with
  | CreateOperation _ data => output (Some data) None None
  | UpdateOperation _ eid update_data =>
      output None (Some eid) (Some (removed_to_None <$> update_data))
  | DeleteOperation _ eid => output None (Some eid) None
  end.

(** [not self._update_data] *)
Definition dict_is_empty {A} (d : gmap string A) : bool :=
  match map_to_list d with [] => true | _ => false end.

(** [to_server_operation]: [None] is Python's [None] ("skip me"); the
    [KeyError] of a create whose payload lost its ["id"] is the only way
    to raise. *)
Definition to_server_operation (op : Operation)
  : Result (option ServerOperation) :=
  match op with
  | CreateOperation _ data =>
      match entity_id op with
      | inl e => Raise e
      | inr eid =>
          Ok (Some {| so_id := id op; so_type := "create";
                      so_entityType := entity_type op;
                      so_entityId := eid; so_data := Some data |})
      end
  | UpdateOperation _ eid update_data =>
      if dict_is_empty update_data then Ok None
      else Ok (Some {| so_id := id op; so_type := "update";
                       so_entityType := entity_type op;
                       so_entityId := eid;
                       so_data := Some (removed_to_None <$> update_data) |})
  | DeleteOperation _ eid =>
      Ok (Some {| so_id := id op; so_type := operation_name op;
                  so_entityType := entity_type op;
                  so_entityId := eid; so_data := None |})
  end.

(** ** The transport and the session *)

(** Any Python object handed to the session: one of the three operation
    classes, or something else (known only by its identity). *)
Inductive pyobject :=
| PyOperation (op : Operation)
| PyOther (ident : nat).

(** [self._con.post("projects/{}/operations".format(project_name),
    operations=operations_body, canFail=False)] *)
Record Request := mkRequest {
  rq_path : string;
  rq_operations : list ServerOperation;
  rq_canFail : bool
}.

(** The arguments [commit] gives to [post] for one project. *)
Definition operations_request (project_name : string)
    (operations_body : list ServerOperation) : Request :=
  {| rq_path := ("projects/" +:+ project_name +:+ "/operations")%stdpp;
     rq_operations := operations_body;
     rq_canFail := false |}.

Section Session.
(** The transport collaborator ([server_api], not part of this module) is
    a parameter: [Conn] is its state and [post] its reaction to a
    request.  While the call is in flight it may call back into the
    session; [po_added] lists the operations such a callback hands to
    [session.extend].  It ends by returning a response, whose [.data] is
    [po_result], or by raising. *)
Context {Conn : Type}.

Record PostOutcome := mkPostOutcome {
  po_con : Conn;
  po_added : list Operation;
  po_result : Result ResultData
}.

Variable post : Conn -> Request -> PostOutcome.

(** [OperationsSession]; [_project_cache] only serves [get_project]. *)
Record OperationsSession := mkOperationsSession {
  _con : Conn;
  _operations : list Operation;
  _nested_operations : gmap string (list Operation)
}.

Definition set_con (c : Conn) (s : OperationsSession) :=
  {| _con := c; _operations := _operations s;
     _nested_operations := _nested_operations s |}.
Definition set_operations (l : list Operation) (s : OperationsSession) :=
  {| _con := _con s; _operations := l;
     _nested_operations := _nested_operations s |}.
Definition set_nested_operations (m : gmap string (list Operation))
    (s : OperationsSession) :=
  {| _con := _con s; _operations := _operations s;
     _nested_operations := m |}.

(** *** Methods as computations on the session

    A method call yields what it returned or raised, the session it
    leaves behind (an exception does not undo earlier mutations) and the
    exchanges it had with the transport, oldest first. *)
Record Run (A : Type) := mkRun {
  returned : Result A;
  session : OperationsSession;
  sent : list (Request * PostOutcome)
}.
Global Arguments mkRun {A} _ _ _.
Global Arguments returned {A} _.
Global Arguments session {A} _.
Global Arguments sent {A} _.

Definition M (A : Type) : Type := OperationsSession -> Run A.

Definition ret {A} (a : A) : M A := fun s => mkRun (Ok a) s [].
Definition raise {A} (e : Exception) : M A := fun s => mkRun (Raise e) s [].
Definition bind {A B} (m : M A) (f : A -> M B) : M B := fun s =>
  let r := m s in
  match returned r with
  | inl e => mkRun (Raise e) (session r) (sent r)
  | inr a =>
      let r' := f a (session r) in
      mkRun (returned r') (session r') (sent r ++ sent r')
  end.
Definition get : M OperationsSession := fun s => mkRun (Ok s) s [].
Definition modify (f : OperationsSession -> OperationsSession) : M unit :=
  fun s => mkRun (Ok tt) (f s) [].
Definition lift {A} (r : Result A) : M A := fun s => mkRun r s [].

Notation "x <- m ;; k" := (bind m (fun x => k))
  (at level 100, m at next level, right associativity).
Notation "m ;;; k" := (bind m (fun _ => k))
  (at level 100, right associativity).

(** [__len__] *)
Definition len (s : OperationsSession) : nat := length (_operations s).

(** [add] *)
Definition add (operation : pyobject) : M unit :=
  match operation with
  | PyOperation op =>
      modify (fun s => set_operations (_operations s ++ [op]) s)
  | PyOther _ => raise (TypeError "Expected Operation object got {}")
  end.

(** [append] *)
Definition append (operation : pyobject) : M unit := add operation.

(** [extend]: [for operation in operations: self.add(operation)] *)
Fixpoint extend (operations : list pyobject) : M unit :=
  match operations with
  | [] => ret tt
  | operation :: rest => add operation ;;; extend rest
  end.

(** [x == y] between the argument of [remove] and a queued operation:
    the classes define no [__eq__], so it is identity. *)
Definition py_eq (x : pyobject) (y : Operation) : bool :=
  match x with
  | PyOperation op => bool_decide (py_id (base_of op) = py_id (base_of y))
  | PyOther _ => false
  end.

(** Python's [list.remove(x)]: drops the first item equal to [x];
    [None] when there is none ([ValueError]). *)
Fixpoint list_remove (x : pyobject) (l : list Operation)
  : option (list Operation) :=
  match l with
  | [] => None
  | y :: l' =>
      if py_eq x y then Some l'
      else match list_remove x l' with
           | Some l'' => Some (y :: l'')
           | None => None
           end
  end.

(** [remove] *)
Definition remove (operation : pyobject) : M unit :=
  s <- get ;;
  match list_remove operation (_operations s) with
  | Some l => modify (set_operations l)
  | None => raise (ValueError "list.remove(x): x not in list")
  end.

(** [clear] *)
Definition clear : M unit := modify (set_operations []).

(** [OperationsSession.to_data] *)
Definition session_to_data (s : OperationsSession) : list OperationData :=
  map to_data (_operations s).

(** *** Deferred ("nested") operations *)

(** The statements that end [create_entity], [update_entity] and
    [delete_entity] alike, once [operation] is built:
<<
      if nested_id:
          self._nested_operations[nested_id].append(operation)
      else:
          self.add(operation)
          if operation.id in self._nested_operations:
              self.extend(self._nested_operations.pop(operation.id))
>>
    [nested_id] is falsy when it is [None] or the empty string;
    [_nested_operations] is a [defaultdict(list)]. *)
Definition add_or_nest (operation : Operation) (nested_id : option string)
  : M unit :=
  match nested_id with
  | Some (String c k) =>
      let nested_id := String c k in
      modify (fun s =>
        set_nested_operations
          (<[nested_id :=
               default [] (_nested_operations s !! nested_id) ++ [operation]]>
             (_nested_operations s)) s)
  | _ =>
      add (PyOperation operation) ;;;
      s <- get ;;
      match _nested_operations s !! id operation with
      | Some nested =>
          modify (set_nested_operations
                    (delete (id operation) (_nested_operations s))) ;;;
          extend (PyOperation <$> nested)
      | None => ret tt
      end
  end.

Definition create_entity (rt : Fresh) (project_name entity_type : string)
    (data : option (gmap string value)) (nested_id : option string)
  : M Operation :=
  operation <- lift (CreateOperation__init__ rt project_name entity_type data) ;;
  add_or_nest operation nested_id ;;;
  ret operation.

Definition update_entity (rt : Fresh) (project_name entity_type : string)
    (entity_id : value) (update_data : gmap string value)
    (nested_id : option string) : M Operation :=
  operation <- lift (UpdateOperation__init__ rt project_name entity_type
                       entity_id update_data) ;;
  add_or_nest operation nested_id ;;;
  ret operation.

Definition delete_entity (rt : Fresh) (project_name entity_type : string)
    (entity_id : value) (nested_id : option string) : M Operation :=
  operation <- lift (DeleteOperation__init__ rt project_name entity_type
                       entity_id) ;;
  add_or_nest operation nested_id ;;;
  ret operation.

(** *** Commit *)

(** [operations_by_project[project_name].append(operation)] on a
    [defaultdict(list)] kept in insertion order. *)
Fixpoint dict_append (project_name : string) (operation : Operation)
    (d : list (string * list Operation)) : list (string * list Operation) :=
  match d with
  | [] => [(project_name, [operation])]
  | (k, ops) :: d' =>
      if bool_decide (k = project_name) then (k, ops ++ [operation]) :: d'
      else (k, ops) :: dict_append project_name operation d'
  end.

Definition group_by_project (operations : list Operation)
  : list (string * list Operation) :=
  foldl (fun d operation => dict_append (project_name operation) operation d)
    [] operations.

(** The inner loop of the first half of [commit]: render each operation
    of one project, record the body under the operation id, skip [None]. *)
Fixpoint render_operations (operations : list Operation)
    (body_by_id : gmap string ServerOperation)
    (operations_body : list ServerOperation)
  : Result (gmap string ServerOperation * list ServerOperation) :=
  match operations with
  | [] => Ok (body_by_id, operations_body)
  | operation :: rest =>
      match to_server_operation operation with
      | inl e => Raise e
      | inr None => render_operations rest body_by_id operations_body
      | inr (Some body) =>
          render_operations rest (<[id operation := body]> body_by_id)
            (operations_body ++ [body])
      end
  end.

(** The call of [self._con.post]: the request goes out, the transport
    may add operations to the session while it handles it, and the call
    ends with [result.data] or an exception. *)
Definition con_post (project_name : string)
    (operations_body : list ServerOperation) : M ResultData := fun s =>
  let rq := operations_request project_name operations_body in
  let o := post (_con s) rq in
  let s' := session (extend (PyOperation <$> po_added o) (set_con (po_con o) s)) in
  mkRun (po_result o) s' [(rq, o)].

(** The first [for] loop of [commit], over the projects. *)
Fixpoint submit_projects (operations_by_project : list (string * list Operation))
    (body_by_id : gmap string ServerOperation) (results : list ResultData)
  : M (gmap string ServerOperation * list ResultData) :=
  match operations_by_project with
  | [] => ret (body_by_id, results)
  | (project_name, operations) :: rest =>
      rendered <- lift (render_operations operations body_by_id []) ;;
      let body_by_id := fst rendered in
      let operations_body := snd rendered in
      match operations_body with
      | [] => submit_projects rest body_by_id results
      | _ =>
          result <- con_post project_name operations_body ;;
          submit_projects rest body_by_id (results ++ [result])
      end
  end.

(** [result.get("success")] as a condition *)
Definition get_success (result : ResultData) : bool :=
  default false (rd_success result).

(** [for op_result in result["operations"]: ...].  The message of the
    failure is formatted from the operation id, then
    [json.dumps(body_by_id[operation_id], indent=4)], then the entry's
    error: a missing id raises [KeyError], and a body [json.dumps] cannot
    write raises its [TypeError], before any [FailedOperations] is
    built. *)
Fixpoint check_op_results (body_by_id : gmap string ServerOperation)
    (op_results : list OpResult) : Result unit :=
  match op_results with
  | [] => Ok tt
  | op_result :: rest =>
      if or_success op_result then check_op_results body_by_id rest
      else
        let operation_id := or_id op_result in
        match body_by_id !! operation_id with
        | None => Raise (KeyError operation_id)
        | Some body =>
            match json_dumps body with
            | inl e => Raise e
            | inr dumped =>
                Raise (FailedOperations
                         (OperationFailedWithData operation_id dumped
                            (or_error op_result)))
            end
        end
  end.

(** The second [for] loop of [commit], over the collected results. *)
Fixpoint check_results (body_by_id : gmap string ServerOperation)
    (results : list ResultData) : Result unit :=
  match results with
  | [] => Ok tt
  | result :: rest =>
      if get_success result then check_results body_by_id rest
      else
        match rd_operations result with
        | None => Raise (FailedOperations (OperationFailedContent result))
        | Some op_results =>
            match check_op_results body_by_id op_results with
            | inl e => Raise e
            | inr _ => check_results body_by_id rest
            end
        end
  end.

(** [commit] *)
Definition commit : M unit :=
  s <- get ;;
  let operations := _operations s in
  modify (set_operations []) ;;;
  match operations with
  | [] => ret tt
  | _ =>
      let operations_by_project := group_by_project operations in
      collected <- submit_projects operations_by_project ∅ [] ;;
      lift (check_results (fst collected) (snd collected))
  end.
End Session.

Global Arguments PostOutcome : clear implicits.
Global Arguments OperationsSession : clear implicits.
Global Arguments Run : clear implicits.
Global Arguments M : clear implicits.

(** ** Specification-side vocabulary

    Pure descriptions of what a commit is expected to put on the wire, used
    to state the properties below; the code itself is [commit]. *)

(** The body an operation contributes to a batch, if any. *)
Definition rendered (op : Operation) : option ServerOperation :=
  match to_server_operation op with
  | inr (Some body) => Some body
  | _ => None
  end.

(** An operation whose rendering does not raise. *)
Definition renders (op : Operation) : Prop :=
  exists body, to_server_operation op = Ok body.

(** [body_by_id] after the operations [l] have been rendered in order. *)
Definition record_bodies (l : list Operation)
    (body_by_id : gmap string ServerOperation) : gmap string ServerOperation :=
  foldl (fun bb op =>
           match rendered op with
           | Some body => <[id op := body]> bb
           | None => bb
           end) body_by_id l.

(** [body_by_id] at the end of the first loop of [commit]. *)
Definition bodies_of (operations : list Operation)
  : gmap string ServerOperation :=
  record_bodies (flat_map snd (group_by_project operations)) ∅.

(** The request of one project, none when every operation dropped. *)
Definition batch_of (partition : string * list Operation) : option Request :=
  match omap rendered (snd partition) with
  | [] => None
  | bodies => Some (operations_request (fst partition) bodies)
  end.

(** The requests of a whole queue, in the order of the projects' first
    appearance. *)
Definition batches (operations : list Operation) : list Request :=
  omap batch_of (group_by_project operations).

(** The responses among the exchanges of a run. *)
Definition responses {Conn} (l : list (Request * PostOutcome Conn))
  : list ResultData :=
  omap (fun ex => match po_result (snd ex) with
                  | inr d => Some d
                  | inl _ => None
                  end) l.

(** No call to the transport raised. *)
Definition all_answered {Conn} (l : list (Request * PostOutcome Conn)) : Prop :=
  Forall (fun ex => exists d, po_result (snd ex) = Ok d) l.

(** A response [commit] lets pass: the overall flag is true, or the
    breakdown is present and has no failed entry. *)
Definition accepted (result : ResultData) : Prop :=
  get_success result = true
  \/ exists op_results, rd_operations result = Some op_results
       /\ Forall (fun e => or_success e = true) op_results.


(** The session after the call of [post] for [project]. *)
Definition after_post {Conn} (post : Conn -> Request -> PostOutcome Conn)
    (project : string) (operations_body : list ServerOperation)
    (s : OperationsSession Conn) : OperationsSession Conn :=
  let o := post (_con s) (operations_request project operations_body) in
  set_operations (_operations s ++ po_added o) (set_con (po_con o) s).

(** The id a Create operation is constructed with: the caller's, when the
    payload has one, else the generated one. *)
Definition construction_id (rt : Fresh) (data : option (gmap string value))
  : value :=
  match default (∅ : gmap string value) data !! "id" with
  | Some v => v
  | None => VStr (fresh_entity_id rt)
  end.

(** The three places a Create operation shows its entity id. *)
Definition create_ids_are (op : Operation) (v : value) : Prop :=
  exists body wire_data debug_data,
    to_server_operation op = Ok (Some body)
    /\ so_entityId body = v
    /\ so_data body = Some wire_data
    /\ wire_data !! "id" = Some v
    /\ od_data (to_data op) = Some debug_data
    /\ debug_data !! "id" = Some v.

Definition set_values (updates : list (string * value)) (op : Operation)
  : Operation :=
  foldl (fun o kv => set_value (fst kv) (snd kv) o) op updates.

(** The id a Create operation is expected to show after the [set_value]
    calls [updates], when it was [constructed] with one: the value of the
    last call that assigned ["id"], and the id of the construction when
    there was no such call. *)
Definition id_after (updates : list (string * value)) (constructed : value)
  : value :=
  foldl (fun current kv =>
           if String.eqb (fst kv) "id" then snd kv else current)
    constructed updates.

(** ** A worked session *)

Module Sample.
Definition fresh (n : nat) (name : string) : Fresh :=
  {| fresh_object := n;
     fresh_uuid4 := (name +:+ "-operation")%stdpp;
     fresh_entity_id := (name +:+ "-entity")%stdpp |}.

(** The object a constructor call leaves, for calls that do not raise. *)
Definition built (r : Result Operation) (fallback : Operation) : Operation :=
  match r with inr op => op | inl _ => fallback end.

Definition nothing : Operation :=
  DeleteOperation (mkAbstractOperation 0 "" "" "") VNone.

(** A folder created with no id of its own. *)
Definition folder : Operation :=
  built (CreateOperation__init__ (fresh 1 "folder") "alpha" "folder" None)
    nothing.

(** Subsets meant to follow the folder. *)
Definition subset : Operation :=
  built (CreateOperation__init__ (fresh 2 "subset") "alpha" "subset"
           (Some {["name" := VStr "main"]})) nothing.
Definition subset2 : Operation :=
  built (CreateOperation__init__ (fresh 6 "subset2") "alpha" "subset"
           (Some {["name" := VStr "second"]})) nothing.

Definition changes : gmap string value :=
  {["label" := REMOVED_VALUE; "name" := VStr "renamed"]}.

Definition rename : Operation :=
  built (UpdateOperation__init__ (fresh 3 "rename") "alpha" "folder"
           (VStr "folder-entity") changes) nothing.

Definition noop : Operation :=
  built (UpdateOperation__init__ (fresh 4 "noop") "alpha" "folder"
           (VStr "folder-entity") ∅) nothing.

Definition drop : Operation :=
  built (DeleteOperation__init__ (fresh 5 "drop") "beta" "version"
           (VStr "not-a-uuid")) nothing.

Definition late : Operation :=
  built (DeleteOperation__init__ (fresh 7 "late") "beta" "version"
           (VStr "11111111-2222-3333-4444-555555555555")) nothing.

(** Transports; the state counts the calls. *)
Definition answer (added : list Operation) (data : ResultData)
    (calls : nat) (rq : Request) : PostOutcome nat :=
  {| po_con := S calls; po_added := added; po_result := Ok data |}.

Definition success : ResultData :=
  {| rd_success := Some true; rd_operations := None |}.
Definition failure : ResultData :=
  {| rd_success := Some false; rd_operations := None |}.
Definition all_passed : ResultData :=
  {| rd_success := Some false;
     rd_operations := Some
       [ {| or_id := "folder-operation"; or_success := true; or_error := "" |};
         {| or_id := "drop-operation"; or_success := true; or_error := "" |} ] |}.

Definition accepting := answer [] success.
Definition rejecting := answer [] failure.
Definition chatty := answer [late] success.

Definition session_of (queue : list Operation) : OperationsSession nat :=
  {| _con := 0; _operations := queue; _nested_operations := ∅ |}.

(** Two subsets deferred under the folder's operation id. *)
Definition waiting : OperationsSession nat :=
  session
    (bind (create_entity (fresh 2 "subset") "alpha" "subset"
             (Some {["name" := VStr "main"]}) (Some (id folder)))
       (fun _ => create_entity (fresh 6 "subset2") "alpha" "subset"
                   (Some {["name" := VStr "second"]}) (Some (id folder)))
       (session_of [])).
End Sample.

(** Tactics for closed facts about the sample session. *)
Ltac by_computation :=
  match goal with |- ?P => apply (bool_decide_unpack P) end;
  vm_compute; exact I.
Ltac each_renders :=
  repeat (apply List.Forall_cons; [eexists; reflexivity|]); apply List.Forall_nil.
Ltac each_answered :=
  vm_compute; repeat (apply List.Forall_cons; [eexists; reflexivity|]);
  apply List.Forall_nil.

(** ** Update data from two documents *)

Section PrepareUpdateData.
(** The comparison [value != old_doc[key]] of two Python values is a
    parameter; [value_ne] below is Python's on the values modelled here. *)
Variable ne : value -> value -> bool.

(** [_prepare_update_data(old_doc, new_doc, replace)]: the two loops, each
    a fold over the items of a dict that writes into [changes]. *)
Definition _prepare_update_data (old_doc new_doc : gmap string value)
    (replace : bool) : gmap string value :=
  let changes :=
    map_fold (fun key value changes =>
                match old_doc !! key with
                | None => <[key := value]> changes
                | Some old =>
                    if ne value old then <[key := value]> changes
                    else changes
                end) (∅ : gmap string value) new_doc in
  if replace then
    map_fold (fun key (_ : value) changes =>
                match new_doc !! key with
                | None => <[key := REMOVED_VALUE]> changes
                | Some _ => changes
                end) changes old_doc
  else changes.
End PrepareUpdateData.

(** Python's [==] on the modelled values: [bool] is a subclass of [int]
    ([True == 1]), lists compare element by element, dicts (taken with
    distinct keys) compare as maps, the sentinel only equals itself. *)
Fixpoint value_eq (a b : value) {struct a} : bool :=
  match a, b with
  | VNone, VNone => true
  | VBool x, VBool y => Bool.eqb x y
  | VBool x, VInt n => (Z.b2z x =? n)%Z
  | VInt n, VBool y => (n =? Z.b2z y)%Z
  | VInt n, VInt m => (n =? m)%Z
  | VStr s, VStr t => String.eqb s t
  | VList l, VList m =>
      (fix elements (l m : list value) : bool :=
         match l, m with
         | [], [] => true
         | x :: l', y :: m' => value_eq x y && elements l' m'
         | _, _ => false
         end) l m
  | VDict d, VDict e =>
      (length d =? length e)%nat
      && (fix items (d : list (string * value)) : bool :=
            match d with
            | [] => true
            | (k, v) :: d' =>
                match list_find (fun kw => String.eqb (fst kw) k) e with
                | Some (_, (_, w)) => value_eq v w
                | None => false
                end && items d'
            end) d
  | REMOVED_VALUE, REMOVED_VALUE => true
  | _, _ => false
  end.

Definition value_ne (a b : value) : bool := negb (value_eq a b).

(** ** Entity skeletons *)

(** Python truthiness of a value ([if not data]). *)
Definition truthy (v : value) : bool :=
  match v with
  | VNone => false
  | VBool b => b
  | VInt n => negb (n =? 0)%Z
  | VStr s => negb (String.eqb s "")
  | VList l => match l with [] => false | _ => true end
  | VDict d => match d with [] => false | _ => true end
  | REMOVED_VALUE => true
  end.

(** [if x is None: x = {}] *)
Definition dict_if_None (v : value) : value :=
  match v with VNone => VDict [] | _ => v end.

(** [if not x: x = {}] *)
Definition dict_if_falsy (v : value) : value :=
  if truthy v then v else VDict [].

(** Sequencing of calls that may raise. *)
Definition and_then {A B} (r : Result A) (f : A -> Result B) : Result B :=
  match r with
  | inl e => Raise e
  | inr a => f a
  end.

Section Skeletons.
(** [create_entity_id] (from [.utils]) is a parameter: [create_entity_id n]
    is the id its call number [n] returns.  The builders below take the
    number of calls made so far and return it updated. *)
Variable create_entity_id : nat -> string.

(** A call of [_create_or_convert_to_id(entity_id)]. *)
Definition convert_id (calls : nat) (entity_id : value) : Result (value * nat) :=
  and_then (_create_or_convert_to_id (create_entity_id calls) entity_id)
    (fun checked =>
       Ok (checked, match entity_id with VNone => S calls | _ => calls end)).

(** [new_folder_entity]; [folder_type] is not used by the body. *)
Definition new_folder_entity (calls : nat)
    (name folder_type parent_id attribs data thumbnail_id entity_id : value)
  : Result (gmap string value * nat) :=
  let attribs := dict_if_None attribs in
  let data := dict_if_None data in
  and_then (match parent_id with
            | VNone => Ok (VNone, calls)
            | _ => convert_id calls parent_id
            end)
    (fun parent =>
  and_then (convert_id (snd parent) entity_id)
    (fun new =>
  Ok ({[ "id" := fst new; "name" := name; "parentId" := fst parent;
         "data" := data; "attrib" := attribs;
         "thumbnailId" := thumbnail_id ]} : gmap string value, snd new))).

(** [new_subset_entity] *)
Definition new_subset_entity (calls : nat)
    (name family folder_id attribs data entity_id : value)
  : Result (gmap string value * nat) :=
  let attribs := dict_if_None attribs in
  let data := dict_if_None data in
  and_then (convert_id calls entity_id)
    (fun new =>
  and_then (convert_id (snd new) folder_id)
    (fun folder =>
  Ok ({[ "id" := fst new; "name" := name; "family" := family;
         "attrib" := attribs; "data" := data;
         "folderId" := fst folder ]} : gmap string value, snd folder))).

(** [new_version_entity]; [version] is an [int], so [int(version)] is
    [version]; [task_id], [thumbnail_id] and [author] are not used by the
    body. *)
Definition new_version_entity (calls : nat) (version : Z)
    (subset_id task_id thumbnail_id author attribs data entity_id : value)
  : Result (gmap string value * nat) :=
  let attribs := dict_if_None attribs in
  let data := dict_if_None data in
  and_then (convert_id calls entity_id)
    (fun new =>
  and_then (convert_id (snd new) subset_id)
    (fun subset =>
  Ok ({[ "id" := fst new; "version" := VInt version;
         "subsetId" := fst subset; "attrib" := attribs;
         "data" := data ]} : gmap string value, snd subset))).

(** [new_hero_version_entity]: the version is [-abs(int(version))] and
    [subset_id] is stored as given. *)
Definition new_hero_version_entity (calls : nat) (version : Z)
    (subset_id task_id thumbnail_id author attribs data entity_id : value)
  : Result (gmap string value * nat) :=
  let attribs := dict_if_None attribs in
  let data := dict_if_None data in
  and_then (convert_id calls entity_id)
    (fun new =>
  Ok ({[ "id" := fst new; "version" := VInt (- Z.abs version);
         "subsetId" := subset_id; "attrib" := attribs;
         "data" := data ]} : gmap string value, snd new)).

(** [new_representation_entity] *)
Definition new_representation_entity (calls : nat)
    (name version_id attribs data entity_id : value)
  : Result (gmap string value * nat) :=
  let attribs := dict_if_None attribs in
  let data := dict_if_None data in
  and_then (convert_id calls entity_id)
    (fun new =>
  and_then (convert_id (snd new) version_id)
    (fun version =>
  Ok ({[ "id" := fst new; "versionId" := fst version; "name" := name;
         "data" := data; "attrib" := attribs ]} : gmap string value,
      snd version))).

(** [new_workfile_info_doc] *)
Definition new_workfile_info_doc (calls : nat)
    (filename folder_id task_name files data entity_id : value)
  : Result (gmap string value * nat) :=
  let data := dict_if_falsy data in
  and_then (convert_id calls entity_id)
    (fun new =>
  and_then (convert_id (snd new) folder_id)
    (fun parent =>
  Ok ({[ "id" := fst new; "parent" := fst parent;
         "task_name" := task_name; "filename" := filename;
         "data" := data; "files" := files ]} : gmap string value,
      snd parent))).
End Skeletons.

(** The number of ids handed out once an id argument has been converted:
    one more when the argument is [None]. *)
Definition calls_after (calls : nat) (v : value) : nat :=
  match v with VNone => S calls | _ => calls end.

(** An id argument [_create_or_convert_to_id] lets through: [None], or a
    string that [uuid.UUID] reads. *)
Definition acceptable_id (v : value) : Prop :=
  v = VNone \/ exists s, v = VStr s /\ Uuid.UUID s = Ok tt.

(** The value [_create_or_convert_to_id] gives for an acceptable argument,
    [fresh] being the id generated for [None]. *)
Definition checked_id (fresh : string) (v : value) : value :=
  match v with VNone => VStr fresh | _ => v end.

(** What is expected of a skeleton builder that converts [entity_id] and
    then a reference [parent] stored under [parent_key]: it returns
    exactly when both are acceptable, and then each of the two is in the
    skeleton as given, or generated when it was [None]. *)
Definition converts_two_ids (create_entity_id : nat -> string) (calls : nat)
    (entity_id parent : value) (parent_key : string)
    (r : Result (gmap string value * nat)) : Prop :=
  match r with
  | inr (doc, calls') =>
      acceptable_id entity_id /\ acceptable_id parent
      /\ doc !! "id" = Some (checked_id (create_entity_id calls) entity_id)
      /\ doc !! parent_key
         = Some (checked_id (create_entity_id (calls_after calls entity_id))
                   parent)
      /\ calls' = calls_after (calls_after calls entity_id) parent
  | inl _ => ~ (acceptable_id entity_id /\ acceptable_id parent)
  end.

(** ** The project cache of the session *)

Module ProjectCache.
Section WithTransport.
(** [self.con.get_project(project_name)] is a parameter: from the state of
    the transport and a name to the new state and what the call returns
    (the project, or [None]) or raises. *)
Context {Conn : Type}.
Variable con_get_project : Conn -> string -> Conn * Result value.

(** The two attributes of the session [get_project] works on. *)
Record Session := mkSession {
  con : Conn;
  _project_cache : gmap string value
}.

(** A call of [get_project]: what it returned or raised, the session it
    leaves, and the names it asked the transport for. *)
Record Call := mkCall {
  returned : Result value;
  session : Session;
  fetched : list string
}.

(** [OperationsSession.get_project]; the copy it returns is the cached
    value. *)
Definition get_project (project_name : string) (self : Session) : Call :=
  match _project_cache self !! project_name with
  | Some project => mkCall (Ok project) self []
  | None =>
      let answer := con_get_project (con self) project_name in
      match snd answer with
      | inl e =>
          mkCall (Raise e) (mkSession (fst answer) (_project_cache self))
            [project_name]
      | inr project =>
          mkCall (Ok project)
            (mkSession (fst answer)
               (<[project_name := project]> (_project_cache self)))
            [project_name]
      end
  end.

(** A series of [get_project] calls, one per name, whatever each returns:
    the session at the end and all the names asked of the transport. *)
Fixpoint get_projects (names : list string) (self : Session)
  : Session * list string :=
  match names with
  | [] => (self, [])
  | name :: rest =>
      let call := get_project name self in
      let later := get_projects rest (session call) in
      (fst later, fetched call ++ snd later)
  end.
End WithTransport.
End ProjectCache.

(** ** Creating and deleting a project *)

Module Projects.
(** [PROJECT_NAME_ALLOWED_SYMBOLS = "a-zA-Z0-9_"] *)
Definition allowed_symbol (c : ascii) : bool :=
  let n := Ascii.nat_of_ascii c in
  (((97 <=? n) && (n <=? 122)) || ((65 <=? n) && (n <=? 90))
   || ((48 <=? n) && (n <=? 57)) || (n =? 95))%nat.

(** [PROJECT_NAME_REGEX.match(project_name)] for the pattern
    ["^[a-zA-Z0-9_]+$"]: one or more allowed symbols up to the end of the
    string, where [$] also matches just before a newline that ends the
    string. *)
Definition PROJECT_NAME_REGEX_match (project_name : string) : bool :=
  let symbols := String.list_ascii_of_string project_name in
  let symbols :=
    match reverse symbols with
    | c :: before => if (Ascii.nat_of_ascii c =? 10)%nat then reverse before
                     else symbols
    | [] => symbols
    end in
  match symbols with
  | [] => false
  | _ => forallb allowed_symbol symbols
  end.

(** What [con.post] and [con.delete] return: [status] (also read as
    [status_code]) and [data]. *)
Record Response := mkResponse {
  status : Z;
  data : option (gmap string value)
}.

(** The calls made on the connection. *)
Inductive ApiCall :=
| GetProject (project_name : string) (fields : option (list string))
| GetProjectAnatomyPreset (preset_name : value)
| PostProjects (name : string) (code anatomy library : value)
| Delete (path : string).

(** The messages of the [ValueError]s. *)
Inductive Failure :=
| AlreadyExists (project_name : string)
| InvalidCharacters (project_name : string)
| FailedToCreate (project_name : string) (details : string)
| NotFound (project_name : string)
| FailedToDelete (project_name : string) (detail : string).

Section WithServer.
(** The connection is a parameter: its state and its four methods, each
    from a state and arguments to the new state and what the call returns
    or raises.  So are [str.format] on the messages ([message]), on a
    status ([str_status]) and on a value ([str_value]). *)
Context {Conn : Type}.
Variable con_get_project :
  Conn -> string -> option (list string) -> Conn * Result value.
Variable con_get_project_anatomy_preset : Conn -> value -> Conn * Result value.
Variable con_post_projects :
  Conn -> string -> value -> value -> value -> Conn * Result Response.
Variable con_delete : Conn -> string -> Conn * Result Response.
Variable message : Failure -> string.
Variable str_status : Z -> string.
Variable str_value : value -> string.

(** A call of [create_project] or [delete_project]. *)
Record Run := mkRun {
  outcome : Result value;
  connection : Conn;
  calls : list ApiCall
}.

(** [create_project(project_name, project_code, library_project,
    preset_name, con)] *)
Definition create_project (project_name : string)
    (project_code library_project preset_name : value) (con : Conn) : Run :=
  let found := con_get_project con project_name (Some ["name"]) in
  let calls1 := [GetProject project_name (Some ["name"])] in
  match snd found with
  | inl e => mkRun (Raise e) (fst found) calls1
  | inr project =>
      if truthy project
      then mkRun (Raise (ValueError (message (AlreadyExists project_name))))
             (fst found) calls1
      else if negb (PROJECT_NAME_REGEX_match project_name)
      then mkRun (Raise (ValueError (message (InvalidCharacters project_name))))
             (fst found) calls1
      else
        let fetched := con_get_project_anatomy_preset (fst found) preset_name in
        let calls2 := calls1 ++ [GetProjectAnatomyPreset preset_name] in
        match snd fetched with
        | inl e => mkRun (Raise e) (fst fetched) calls2
        | inr preset =>
            let posted := con_post_projects (fst fetched) project_name
                            project_code preset library_project in
            let calls3 :=
              calls2 ++ [PostProjects project_name project_code preset
                           library_project] in
            match snd posted with
            | inl e => mkRun (Raise e) (fst posted) calls3
            | inr result =>
                if negb (status result =? 201)%Z
                then
                  let details :=
                    match data result with
                    | Some d =>
                        if dict_is_empty d
                        then ("Unknown details (" +:+ str_status (status result)
                              +:+ ")")%stdpp
                        else match d !! "detail" with
                             | Some detail =>
                                 if truthy detail then str_value detail
                                 else ("Unknown details ("
                                       +:+ str_status (status result)
                                       +:+ ")")%stdpp
                             | None => ("Unknown details ("
                                        +:+ str_status (status result)
                                        +:+ ")")%stdpp
                             end
                    | None => ("Unknown details ("
                               +:+ str_status (status result) +:+ ")")%stdpp
                    end in
                  mkRun (Raise (ValueError
                                  (message (FailedToCreate project_name details))))
                    (fst posted) calls3
                else
                  let created := con_get_project (fst posted) project_name None in
                  mkRun (snd created) (fst created)
                    (calls3 ++ [GetProject project_name None])
            end
        end
  end.

(** [delete_project(project_name, con)]; it returns [None]. *)
Definition delete_project (project_name : string) (con : Conn) : Run :=
  let found := con_get_project con project_name (Some ["name"]) in
  let calls1 := [GetProject project_name (Some ["name"])] in
  match snd found with
  | inl e => mkRun (Raise e) (fst found) calls1
  | inr project =>
      if negb (truthy project)
      then mkRun (Raise (ValueError (message (NotFound project_name))))
             (fst found) calls1
      else
        let path := ("projects/" +:+ project_name)%stdpp in
        let deleted := con_delete (fst found) path in
        let calls2 := calls1 ++ [Delete path] in
        match snd deleted with
        | inl e => mkRun (Raise e) (fst deleted) calls2
        | inr result =>
            if negb (status result =? 204)%Z
            then
              match data result with
              | None =>
                  mkRun (Raise (TypeError
                                  "'NoneType' object is not subscriptable"))
                    (fst deleted) calls2
              | Some d =>
                  match d !! "detail" with
                  | None => mkRun (Raise (KeyError "detail")) (fst deleted)
                              calls2
                  | Some detail =>
                      mkRun (Raise (ValueError
                                      (message (FailedToDelete project_name
                                                  (str_value detail)))))
                        (fst deleted) calls2
                  end
              end
            else mkRun (Ok VNone) (fst deleted) calls2
        end
  end.
End WithServer.
End Projects.

(** ** Further vocabulary *)

(** [isinstance(operation, (CreateOperation, UpdateOperation,
    DeleteOperation))] *)
Definition is_operation (x : pyobject) : bool :=
  match x with PyOperation _ => true | PyOther _ => false end.

(** The operations at the head of a list of objects, up to the first object
    that is not an operation. *)
Fixpoint leading_operations (l : list pyobject) : list Operation :=
  match l with
  | PyOperation op :: rest => op :: leading_operations rest
  | _ => []
  end.

(** The operations of a queue that target one project, in queue order. *)
Definition of_project (project : string) (operations : list Operation)
  : list Operation :=
  filter (fun op => project_name op = project) operations.

(** What a convenience constructor called with a dependency reference
    [key] leaves behind: the new operation is returned, the ready queue is
    as before, the operation is the last one deferred under [key], no
    other entry of the deferral map moves, and the transport is not
    called. *)
Definition deferred_under {Conn} (key : string) (s : OperationsSession Conn)
    (r : Run Conn Operation) : Prop :=
  exists op,
    returned r = Ok op
    /\ _operations (session r) = _operations s
    /\ _nested_operations (session r) !! key
       = Some (default [] (_nested_operations s !! key) ++ [op])
    /\ (forall other, other <> key ->
          _nested_operations (session r) !! other
          = _nested_operations s !! other)
    /\ _con (session r) = _con s
    /\ sent r = [].

(** What a convenience constructor called without a dependency reference
    leaves behind when nothing is deferred under the new operation's id:
    the operation is returned and is the new last element of the queue. *)
Definition added_last {Conn} (s : OperationsSession Conn)
    (r : Run Conn Operation) : Prop :=
  exists op,
    returned r = Ok op
    /\ _operations (session r) = _operations s ++ [op]
    /\ _nested_operations (session r) = _nested_operations s
    /\ _con (session r) = _con s
    /\ sent r = [].

(** The projects of a queue, each once, in the order of their first
    appearance. *)
Definition projects_in_order (operations : list Operation) : list string :=
  reverse (remove_dups (reverse (project_name <$> operations))).

(** How a rendered change-set relates to the change-set of the Update
    operation: the same keys, no key mapped to the removal marker, and
    every value that is not the marker as it was. *)
Definition rendered_changes (update_data rendered : gmap string value) : Prop :=
  dom rendered = dom update_data
  /\ (forall key, rendered !! key <> Some REMOVED_VALUE)
  /\ (forall key v, update_data !! key = Some v -> v <> REMOVED_VALUE ->
        rendered !! key = Some v).

(** ** More worked cases *)

Module Cases.
(** The folder's operation id has the subset deferred under it, and the
    subset's operation id has a second subset deferred under it. *)
Definition family : OperationsSession nat :=
  {| _con := 0; _operations := [];
     _nested_operations :=
       {[ "folder-operation" := [Sample.subset];
          "subset-operation" := [Sample.subset2] ]} |}.

(** A transport whose calls raise. *)
Definition broken (calls : nat) (rq : Request) : PostOutcome nat :=
  {| po_con := S calls; po_added := [];
     po_result := Raise (TransportFault "connection reset") |}.

(** A breakdown whose failed entry names an operation that was not sent. *)
Definition stranger_failed : ResultData :=
  {| rd_success := Some false;
     rd_operations := Some
       [ {| or_id := "folder-operation"; or_success := true; or_error := "" |};
         {| or_id := "noop-operation"; or_success := false;
            or_error := "nothing to update" |} ] |}.


(** A true overall flag over a breakdown with a failed entry. *)
Definition contradictory : ResultData :=
  {| rd_success := Some true;
     rd_operations := Some
       [ {| or_id := "folder-operation"; or_success := false;
            or_error := "name taken" |} ] |}.

Definition old_doc : gmap string value :=
  {[ "name" := VStr "main"; "label" := VStr "draft"; "active" := VBool true ]}.
Definition new_doc : gmap string value :=
  {[ "name" := VStr "renamed"; "active" := VInt 1 ]}.

(** An id generator. *)
Definition ids (n : nat) : string :=
  String (Ascii.ascii_of_nat (48 + n)) "-generated".

Definition uuid : value := VStr "12345678-1234-5678-1234-567812345678".

(** A transport that knows the project ["alpha"] alone; the state counts
    the lookups. *)
Definition lookup (calls : nat) (name : string) : nat * Result value :=
  (S calls,
   Ok (if String.eqb name "alpha" then VDict [("name", VStr "alpha")]
       else VNone)).

(** The body the folder operation is sent as, and the request for it. *)
Definition folder_body : ServerOperation :=
  {| so_id := "folder-operation"; so_type := "create";
     so_entityType := "folder"; so_entityId := VStr "folder-entity";
     so_data := Some {[ "id" := VStr "folder-entity" ]} |}.
Definition folder_request : Request :=
  operations_request "alpha" [folder_body].

(** The skeleton of a version with generated ids. *)
Definition version_doc : gmap string value :=
  {[ "id" := VStr "0-generated"; "version" := VInt 3;
     "subsetId" := VStr "1-generated"; "attrib" := VDict [];
     "data" := VDict [] ]}.

(** The skeleton of a folder with a generated id and no parent. *)
Definition folder_doc : gmap string value :=
  {[ "id" := VStr "0-generated"; "name" := VStr "shots";
     "parentId" := VNone; "data" := VDict []; "attrib" := VDict [];
     "thumbnailId" := VNone ]}.
End Cases.

(** Looks for a call in the explicit list of calls of a run. *)
Ltac find_call H :=
  cbn in H;
  repeat (apply elem_of_cons in H as [H|H];
          [try discriminate H; try (by injection H as -> _ _ _);
           try (by injection H as ->) |]);
  by apply elem_of_nil in H.

(** ** Properties of the operation classes *)

Lemma dict_is_empty_true {A} (d : gmap string A) :
  dict_is_empty d = true <-> d = ∅.
Proof.
  unfold dict_is_empty. rewrite <- map_to_list_empty_iff.
  destruct (map_to_list d); split; congruence.
Qed.

Lemma dict_is_empty_lookup {A} (d : gmap string A) k x :
  d !! k = Some x -> dict_is_empty d = false.
Proof.
  intros H. destruct (dict_is_empty d) eqn:E; [|done].
  apply dict_is_empty_true in E. subst. by rewrite lookup_empty in H.
Qed.

Lemma removed_to_None_lookup (d : gmap string value) k :
  (removed_to_None <$> d) !! k = removed_to_None <$> (d !! k).
Proof. apply lookup_fmap. Qed.

(** Operations of a queue without repeated ids are told apart by id. *)
Lemma NoDup_id_inj (l : list Operation) x y :
  NoDup (id <$> l) -> x ∈ l -> y ∈ l -> id x = id y -> x = y.
Proof.
  induction l as [|z l IH]; intros Hnd Hx Hy Hid.
  - by apply elem_of_nil in Hx.
  - rewrite fmap_cons in Hnd. apply NoDup_cons in Hnd as [Hz Hnd].
    apply elem_of_cons in Hx as [->|Hx]; apply elem_of_cons in Hy as [->|Hy].
    + done.
    + exfalso. apply Hz. rewrite Hid. by apply list_elem_of_fmap_2.
    + exfalso. apply Hz. rewrite <- Hid. by apply list_elem_of_fmap_2.
    + by apply IH.
Qed.

(** Every rendering carries the operation's own id. *)
Lemma to_server_operation_id op body :
  to_server_operation op = Ok (Some body) -> so_id body = id op.
Proof.
  destruct op as [b data|b eid upd|b eid]; simpl.
  - destruct (data !! "id"); [|done]. by intros [= <-].
  - destruct (dict_is_empty upd); [done|]. by intros [= <-].
  - by intros [= <-].
Qed.

(** Only a Create operation whose payload lost its ["id"] fails to render;
    what the constructors build always renders. *)
Lemma renders_iff op :
  renders op <->
  match op with
  | CreateOperation _ data => is_Some (data !! "id")
  | _ => True
  end.
Proof.
  unfold renders. destruct op as [b data|b eid upd|b eid]; simpl.
  - destruct (data !! "id") as [v|]; split.
    + by eexists.
    + intros _. by eexists.
    + by intros [? [=]].
    + by intros [? [=]].
  - split; [done|]. intros _. destruct (dict_is_empty upd); by eexists.
  - split; [done|]. intros _. by eexists.
Qed.

Lemma renders_constructed rt project entity data eid update_data op :
  CreateOperation__init__ rt project entity data = Ok op
  \/ UpdateOperation__init__ rt project entity eid update_data = Ok op
  \/ DeleteOperation__init__ rt project entity eid = Ok op ->
  renders op.
Proof.
  intros [H|[H|H]]; injection H as <-; apply renders_iff; [|done..].
  destruct (default ∅ data !! "id") eqn:E; [by rewrite E|].
  by rewrite lookup_insert_eq.
Qed.


(** C7. For an Update operation and a key whose change-set value is the
    field-removal marker, the debug rendering ([to_data]) and the wire
    rendering ([to_server_operation]) both contain that key, mapped to
    [None]; the wire rendering exists, and a key the change-set does not
    mention is absent from both, so a removed field is told apart from an
    unmentioned one. *)
Theorem update_renders_removed_as_None
    (base : AbstractOperation) (eid : value) (update_data : gmap string value)
    (key : string) :
  update_data !! key = Some REMOVED_VALUE ->
  exists changes body data,
    od_changes (to_data (UpdateOperation base eid update_data)) = Some changes
    /\ changes !! key = Some VNone
    /\ to_server_operation (UpdateOperation base eid update_data) = Ok (Some body)
    /\ so_data body = Some data
    /\ data !! key = Some VNone
    /\ forall other, update_data !! other = None ->
         changes !! other = None /\ data !! other = None.
Proof.
  intros Hkey.
  exists (removed_to_None <$> update_data).
  eexists. exists (removed_to_None <$> update_data).
  simpl. rewrite (dict_is_empty_lookup _ _ _ Hkey).
  repeat split; try reflexivity.
  - by rewrite removed_to_None_lookup, Hkey.
  - by rewrite removed_to_None_lookup, Hkey.
  - by rewrite removed_to_None_lookup, H.
  - by rewrite removed_to_None_lookup, H.
Qed.

Lemma create_ids_are_intro base data v :
  data !! "id" = Some v -> create_ids_are (CreateOperation base data) v.
Proof.
  intros H. unfold create_ids_are. simpl. rewrite H.
  eexists. exists data, data. simpl. done.
Qed.

Lemma set_values_create updates : forall base data,
  exists data',
    set_values updates (CreateOperation base data) = CreateOperation base data'
    /\ (Forall (fun kv => fst kv <> "id") updates -> data' !! "id" = data !! "id")
    /\ (is_Some (data !! "id") -> is_Some (data' !! "id")).
Proof.
  induction updates as [|[k v] updates IH]; intros base data; simpl.
  - by exists data.
  - destruct (IH base (<[k := v]> data)) as (data' & -> & Hkeep & Hsome).
    exists data'. split; [done|]. split.
    + intros Hall. inversion_clear Hall as [|?? Hk Hrest]. simpl in Hk.
      rewrite (Hkeep Hrest). by apply lookup_insert_ne.
    + intros Hid. apply Hsome. rewrite lookup_insert. by case_decide.
Qed.

(** Whatever [set_value] calls follow the construction, the three
    renderings of a Create operation agree on the entity id. *)
Lemma create_renderings_agree rt project entity data updates op :
  CreateOperation__init__ rt project entity data = Ok op ->
  exists v, create_ids_are (set_values updates op) v.
Proof.
  unfold CreateOperation__init__. intros [= <-].
  set (d := match _ with Some _ => _ | None => _ end).
  assert (is_Some (d !! "id")) as Hd.
  { subst d. destruct (default ∅ data !! "id") eqn:E; [by rewrite E|].
    by rewrite lookup_insert_eq. }
  destruct (set_values_create updates (AbstractOperation__init__ rt project entity) d)
    as (d' & -> & _ & Hsome).
  destruct (Hsome Hd) as [v Hv]. exists v. by apply create_ids_are_intro.
Qed.

Lemma set_values_create_id updates : forall base data constructed,
  data !! "id" = Some constructed ->
  exists data',
    set_values updates (CreateOperation base data) = CreateOperation base data'
    /\ data' !! "id" = Some (id_after updates constructed).
Proof.
  induction updates as [|[k v] updates IH]; intros base data constructed Hid.
  - by exists data.
  - cbn [set_values id_after foldl fst snd set_value].
    destruct (String.eqb_spec k "id") as [->|Hk].
    + apply IH. apply lookup_insert_eq.
    + apply IH. by rewrite lookup_insert_ne.
Qed.

Lemma id_after_other_keys updates constructed :
  Forall (fun kv => fst kv <> "id") updates ->
  id_after updates constructed = constructed.
Proof.
  induction 1 as [|[k v] updates Hk _ IH]; [done|].
  cbn [id_after foldl fst snd]. simpl in Hk.
  by destruct (String.eqb_spec k "id").
Qed.

(** C8 (as the code has it). A Create operation gets its entity id at
    construction: the id found in the caller's payload, or the generated
    one injected into the payload when the caller gave none.  After any
    [set_value] calls the wire rendering's [entityId], the wire
    rendering's [data["id"]] and the debug rendering's [data["id"]] all
    equal one value, the id the payload then holds: the value of the last
    call that assigned ["id"], and so the id of the construction when no
    call assigned ["id"]. *)
Theorem create_entity_id_fixed
    (rt : Fresh) (project entity : string) (data : option (gmap string value))
    (updates : list (string * value)) (op : Operation) :
  CreateOperation__init__ rt project entity data = Ok op ->
  entity_id op = Ok (construction_id rt data)
  /\ create_ids_are (set_values updates op)
       (id_after updates (construction_id rt data))
  /\ (Forall (fun kv => fst kv <> "id") updates ->
      create_ids_are (set_values updates op) (construction_id rt data)).
Proof.
  unfold CreateOperation__init__, construction_id. intros [= <-].
  set (d := match _ with Some _ => _ | None => _ end).
  set (v := match _ with Some v => v | None => _ end).
  assert (d !! "id" = Some v) as Hd.
  { subst d v. destruct (default ∅ data !! "id") eqn:E; [by rewrite E|].
    by rewrite lookup_insert_eq. }
  destruct (set_values_create_id updates
              (AbstractOperation__init__ rt project entity) d v Hd)
    as (d' & Hset & Hid).
  split; [simpl; by rewrite Hd|].
  split.
  - rewrite Hset. by apply create_ids_are_intro.
  - intros Hupd. rewrite Hset. apply create_ids_are_intro.
    by rewrite Hid, (id_after_other_keys _ _ Hupd).
Qed.

(** ** Properties of the session *)

Section SessionProperties.
Context {Conn : Type}.
Variable post : Conn -> Request -> PostOutcome Conn.

Implicit Types (s : OperationsSession Conn) (op : Operation).

Lemma set_operations_same s : set_operations (_operations s) s = s.
Proof. by destruct s. Qed.

Lemma add_run op s :
  add (PyOperation op) s
  = mkRun (Ok tt) (set_operations (_operations s ++ [op]) s) [].
Proof. reflexivity. Qed.

Lemma extend_run (l : list Operation) s :
  extend (PyOperation <$> l) s
  = mkRun (Ok tt) (set_operations (_operations s ++ l) s) [].
Proof.
  revert s. induction l as [|op l IH]; intros s; simpl.
  - unfold ret. by rewrite app_nil_r, set_operations_same.
  - unfold bind. simpl. rewrite IH. simpl.
    unfold set_operations. simpl. by rewrite <- app_assoc.
Qed.

Lemma con_post_run project operations_body s :
  let rq := operations_request project operations_body in
  let o := post (_con s) rq in
  con_post post project operations_body s
  = mkRun (po_result o)
      (set_operations (_operations s ++ po_added o) (set_con (po_con o) s))
      [(rq, o)].
Proof. intros rq o. unfold con_post. by rewrite extend_run. Qed.

(** One turn of the first loop of [commit], spelled out. *)
Lemma submit_projects_cons project ops parts bb results s :
  submit_projects post ((project, ops) :: parts) bb results s
  = match render_operations ops bb [] with
    | inl e => mkRun (Raise e) s []
    | inr (bb', []) => submit_projects post parts bb' results s
    | inr (bb', body) =>
        let rq := operations_request project body in
        let o := post (_con s) rq in
        match po_result o with
        | inl e => mkRun (Raise e) (after_post post project body s) [(rq, o)]
        | inr d =>
            let r := submit_projects post parts bb' (results ++ [d])
                       (after_post post project body s) in
            mkRun (returned r) (session r) ((rq, o) :: sent r)
        end
    end.
Proof.
  cbn [submit_projects]. unfold bind at 1. unfold lift. cbn [returned session sent].
  destruct (render_operations ops bb []) as [e|[bb' [|b body]]];
    cbn [returned session sent fst snd app]; try reflexivity.
  - by destruct (submit_projects post parts bb' results s).
  - unfold bind. rewrite con_post_run. cbn [returned session sent].
    by destruct (po_result _).
Qed.

(** What the first loop of [commit] does to the session: the queue grows
    by what the transport added during the calls, nothing else moves. *)
Lemma submit_projects_session parts : forall bb results s,
  let r := submit_projects post parts bb results s in
  _operations (session r)
    = _operations s ++ flat_map (fun ex => po_added (snd ex)) (sent r)
  /\ _nested_operations (session r) = _nested_operations s.
Proof.
  induction parts as [|[project ops] parts IH]; intros bb results s.
  - simpl. by rewrite app_nil_r.
  - cbn zeta. rewrite submit_projects_cons.
    destruct (render_operations ops bb []) as [e|[bb' [|b body]]].
    + simpl. by rewrite app_nil_r.
    + apply IH.
    + cbn zeta. destruct (po_result _) as [e|d]; simpl.
      { by rewrite app_nil_r. }
      destruct (IH bb' (results ++ [d]) (after_post post project (b :: body) s))
        as [Hq Hn].
      simpl in Hq, Hn. rewrite Hq, Hn. simpl. by rewrite <- app_assoc.
Qed.

Lemma render_operations_bodies ops : forall bb acc bb' acc',
  render_operations ops bb acc = Ok (bb', acc') ->
  forall body, body ∈ acc' ->
    body ∈ acc \/ exists op, op ∈ ops /\ to_server_operation op = Ok (Some body).
Proof.
  induction ops as [|op ops IH]; intros bb acc bb' acc'; simpl.
  - intros [= <- <-] body Hin. by left.
  - destruct (to_server_operation op) as [e|[b|]] eqn:E; [done| |].
    + intros Hr body Hin.
      destruct (IH _ _ _ _ Hr body Hin) as [Hacc|(op' & Hop' & Hb)].
      * apply elem_of_app in Hacc as [Hacc|Hacc]; [by left|].
        apply list_elem_of_singleton in Hacc as ->.
        right. exists op. split; [left|done].
      * right. exists op'. split; [by right|done].
    + intros Hr body Hin.
      destruct (IH _ _ _ _ Hr body Hin) as [Hacc|(op' & Hop' & Hb)].
      * by left.
      * right. exists op'. split; [by right|done].
Qed.

(** Every body put on the wire is the rendering of an operation of the
    partitions being submitted. *)
Lemma submit_projects_bodies parts : forall bb results s ex body,
  ex ∈ sent (submit_projects post parts bb results s) ->
  body ∈ rq_operations (fst ex) ->
  exists project ops op,
    (project, ops) ∈ parts /\ op ∈ ops
    /\ to_server_operation op = Ok (Some body).
Proof.
  induction parts as [|[project ops] parts IH]; intros bb results s ex body.
  - simpl. by intros ?%elem_of_nil.
  - rewrite submit_projects_cons.
    assert (forall bb1 r1 s1,
              ex ∈ sent (submit_projects post parts bb1 r1 s1) ->
              body ∈ rq_operations (fst ex) ->
              exists project0 ops0 op, (project0, ops0) ∈ (project, ops) :: parts
                /\ op ∈ ops0 /\ to_server_operation op = Ok (Some body)) as Hrest.
    { intros bb1 r1 s1 Hin Hb.
      destruct (IH _ _ _ _ _ Hin Hb) as (p0 & o0 & op & ? & ? & ?).
      exists p0, o0, op. split; [by right|done]. }
    destruct (render_operations ops bb []) as [e|[bb' [|b bodies]]] eqn:Hr.
    + simpl. by intros ?%elem_of_nil.
    + apply Hrest.
    + cbn zeta.
      set (rq := operations_request project (b :: bodies)).
      assert (ex = (rq, post (_con s) rq) -> body ∈ rq_operations (fst ex) ->
              exists project0 ops0 op, (project0, ops0) ∈ (project, ops) :: parts
                /\ op ∈ ops0 /\ to_server_operation op = Ok (Some body)) as Hhere.
      { intros -> Hb. simpl in Hb.
        destruct (render_operations_bodies _ _ _ _ _ Hr body Hb)
          as [Hnil|(op & Hop & Hbody)]; [by apply elem_of_nil in Hnil|].
        exists project, ops, op. split; [left|done]. }
      destruct (po_result _) as [e|d]; simpl.
      * intros Hin%list_elem_of_singleton. by apply Hhere.
      * intros [Hin|Hin]%elem_of_cons; [by apply Hhere|]. by eapply Hrest.
Qed.

(** *** Grouping by project *)

Lemma dict_append_flat project op d :
  flat_map snd (dict_append project op d) ≡ₚ flat_map snd d ++ [op].
Proof.
  induction d as [|[k l] d IH]; simpl; [done|].
  case_bool_decide; simpl.
  - rewrite <- !app_assoc. f_equiv. apply Permutation_app_comm.
  - by rewrite IH, app_assoc.
Qed.

Lemma group_by_project_flat operations :
  flat_map snd (group_by_project operations) ≡ₚ operations.
Proof.
  unfold group_by_project.
  enough (forall d, flat_map snd
            (foldl (fun d op => dict_append (project_name op) op d) d operations)
            ≡ₚ flat_map snd d ++ operations) as H by apply (H []).
  induction operations as [|op ops IH]; intros d; simpl.
  - by rewrite app_nil_r.
  - rewrite IH, dict_append_flat. by rewrite <- app_assoc.
Qed.

Lemma elem_of_flat_parts (parts : list (string * list Operation)) op :
  op ∈ flat_map snd parts <-> exists part, part ∈ parts /\ op ∈ snd part.
Proof.
  rewrite list_elem_of_In, in_flat_map. split.
  - intros (part & Hp & Ho). exists part. by rewrite !list_elem_of_In.
  - intros (part & Hp & Ho). exists part. by rewrite <- !list_elem_of_In.
Qed.

Lemma group_by_project_elem operations project ops op :
  (project, ops) ∈ group_by_project operations -> op ∈ ops -> op ∈ operations.
Proof.
  intros Hpart Hop. rewrite <- (group_by_project_flat operations).
  apply elem_of_flat_parts. by exists (project, ops).
Qed.

(** *** The bodies recorded in [body_by_id] *)

Lemma record_bodies_app l1 l2 bb :
  record_bodies (l1 ++ l2) bb = record_bodies l2 (record_bodies l1 bb).
Proof. apply foldl_app. Qed.

Lemma record_bodies_cons op l bb :
  record_bodies (op :: l) bb
  = record_bodies l (match rendered op with
                     | Some body => <[id op := body]> bb
                     | None => bb
                     end).
Proof. reflexivity. Qed.




Lemma render_operations_renders ops : forall bb acc,
  Forall renders ops ->
  render_operations ops bb acc
  = Ok (record_bodies ops bb, acc ++ omap rendered ops).
Proof.
  induction ops as [|op ops IH]; intros bb acc Hall.
  - simpl. by rewrite app_nil_r.
  - inversion_clear Hall as [|?? [b Hb] Hrest].
    cbn [render_operations]. rewrite record_bodies_cons.
    cbn [omap list_omap]. unfold rendered at 1 2. rewrite Hb.
    destruct b as [b|]; rewrite (IH _ _ Hrest); [|done].
    by rewrite <- app_assoc.
Qed.

(** *** Runs in which rendering and the transport do not raise *)

Lemma responses_cons (ex : Request * PostOutcome Conn) l d :
  po_result (snd ex) = inr d -> responses (ex :: l) = d :: responses l.
Proof. intros H. unfold responses. cbn [omap list_omap]. by rewrite H. Qed.

Lemma submit_projects_answered parts : forall bb results s,
  Forall (fun part => Forall renders (snd part)) parts ->
  let r := submit_projects post parts bb results s in
  all_answered (sent r) ->
  returned r
    = Ok (record_bodies (flat_map snd parts) bb, results ++ responses (sent r))
  /\ fst <$> sent r = omap batch_of parts.
Proof.
  induction parts as [|[project ops] parts IH]; intros bb results s Hall.
  - simpl. intros _. by rewrite app_nil_r.
  - inversion_clear Hall as [|?? Hops Hparts]. cbn zeta.
    rewrite submit_projects_cons, (render_operations_renders _ _ _ Hops).
    cbn [flat_map snd app]. rewrite record_bodies_app.
    cbn [omap list_omap]. unfold batch_of at 1. cbn [fst snd].
    destruct (omap rendered ops) as [|b body] eqn:E.
    + by apply IH.
    + cbn zeta. destruct (po_result _) as [e|d] eqn:Ho.
      * intros Hans. cbn [sent] in Hans.
        inversion Hans as [|?? [d Hd] _]. simpl in Hd. congruence.
      * cbn [sent returned]. intros Hans.
        inversion_clear Hans as [|?? _ Hrest].
        destruct (IH _ (results ++ [d]) (after_post post project (b :: body) s)
                    Hparts Hrest) as [Hret Hreq].
        rewrite Hret. split.
        -- rewrite (responses_cons _ _ d) by done. by rewrite <- app_assoc.
        -- rewrite fmap_cons. cbn [fst]. by rewrite Hreq.
Qed.

Lemma commit_nil s :
  _operations s = [] -> commit post s = mkRun (Ok tt) s [].
Proof.
  destruct s as [c ops nested]. simpl. by intros ->.
Qed.

(** [commit] on a non-empty queue: the first loop runs on the session
    with an empty queue, then the results are checked. *)
Lemma commit_cons s :
  _operations s <> [] ->
  commit post s
  = let r := submit_projects post (group_by_project (_operations s)) ∅ []
               (set_operations [] s) in
    match returned r with
    | inl e => mkRun (Raise e) (session r) (sent r)
    | inr collected =>
        mkRun (check_results (fst collected) (snd collected)) (session r)
          (sent r)
    end.
Proof.
  intros H. unfold commit. unfold bind at 1 2. unfold get, modify.
  cbn [returned session sent app].
  destruct (_operations s) as [|op ops] eqn:E; [done|].
  unfold bind, lift. cbn zeta.
  destruct (returned (submit_projects _ _ _ _ _));
    cbn [returned session sent]; by rewrite ?app_nil_r.
Qed.

Lemma commit_answered s :
  Forall renders (_operations s) ->
  let r := commit post s in
  all_answered (sent r) ->
  returned r = check_results (bodies_of (_operations s)) (responses (sent r))
  /\ fst <$> sent r = batches (_operations s).
Proof.
  intros Hall. cbn zeta.
  destruct (decide (_operations s = [])) as [Hnil|Hne].
  - rewrite (commit_nil _ Hnil), Hnil. done.
  - rewrite (commit_cons _ Hne). cbn zeta. intros Hans.
    assert (Forall (fun part => Forall renders (snd part))
              (group_by_project (_operations s))) as Hparts.
    { apply Forall_forall. intros [project ops] Hpart.
      apply Forall_forall. intros op Hop.
      rewrite Forall_forall in Hall. apply Hall.
      by eapply group_by_project_elem. }
    assert (all_answered (sent (submit_projects post
              (group_by_project (_operations s)) ∅ [] (set_operations [] s))))
      as Hans'.
    { by destruct (returned _). }
    destruct (submit_projects_answered _ ∅ [] (set_operations [] s) Hparts Hans')
      as [Hret Hreq].
    rewrite Hret. cbn [returned sent fst snd app]. done.
Qed.

Lemma render_operations_inv ops : forall bb acc bb' acc',
  render_operations ops bb acc = Ok (bb', acc') -> Forall renders ops.
Proof.
  induction ops as [|op ops IH]; intros bb acc bb' acc'; simpl; [done|].
  destruct (to_server_operation op) as [e|[b|]] eqn:E; [done| |];
    intros Hr; (constructor; [by eexists|by eapply IH]).
Qed.

(** The requests of the first loop are the planned batches, up to the
    point where the loop stops. *)
Lemma submit_projects_prefix parts : forall bb results s,
  (fst <$> sent (submit_projects post parts bb results s))
    `prefix_of` omap batch_of parts.
Proof.
  induction parts as [|[project ops] parts IH]; intros bb results s.
  - done.
  - rewrite submit_projects_cons. cbn [omap list_omap].
    destruct (render_operations ops bb []) as [e|[bb' bodies]] eqn:Hr.
    { apply prefix_nil. }
    pose proof (render_operations_inv _ _ _ _ _ Hr) as Hall.
    rewrite (render_operations_renders _ _ _ Hall) in Hr.
    injection Hr as <- <-. unfold batch_of at 1. cbn [fst snd app].
    destruct (omap rendered ops) as [|b body]; [apply IH|].
    cbn zeta. destruct (po_result _) as [e|d]; cbn [sent].
    + rewrite fmap_cons. apply prefix_cons, prefix_nil.
    + rewrite fmap_cons. apply prefix_cons, IH.
Qed.

Lemma submit_projects_nonempty parts : forall bb results s ex,
  ex ∈ sent (submit_projects post parts bb results s) ->
  rq_operations (fst ex) <> [].
Proof.
  induction parts as [|[project ops] parts IH]; intros bb results s ex.
  - simpl. by intros ?%elem_of_nil.
  - rewrite submit_projects_cons.
    destruct (render_operations ops bb []) as [e|[bb' [|b bodies]]].
    + simpl. by intros ?%elem_of_nil.
    + apply IH.
    + cbn zeta. destruct (po_result _) as [e|d]; cbn [sent].
      * by intros ->%list_elem_of_singleton.
      * intros [->|Hin]%elem_of_cons; [done|]. by eapply IH.
Qed.

(** The exchanges and the final session of a [commit] are those of its
    first loop, run on the session with the queue detached. *)
Lemma commit_sent_session s :
  let r := submit_projects post (group_by_project (_operations s)) ∅ []
             (set_operations [] s) in
  sent (commit post s) = sent r /\ session (commit post s) = session r.
Proof.
  cbn zeta. destruct (decide (_operations s = [])) as [Hnil|Hne].
  - rewrite (commit_nil _ Hnil), Hnil. simpl. by rewrite <- Hnil, set_operations_same.
  - rewrite (commit_cons _ Hne). cbn zeta.
    by destruct (returned (submit_projects _ _ _ _ _)).
Qed.

Lemma commit_bodies s ex body :
  ex ∈ sent (commit post s) -> body ∈ rq_operations (fst ex) ->
  exists op, op ∈ _operations s /\ to_server_operation op = Ok (Some body).
Proof.
  destruct (commit_sent_session s) as [-> _]. intros Hex Hbody.
  destruct (submit_projects_bodies _ _ _ _ _ _ Hex Hbody)
    as (project & ops & op & Hpart & Hop & Hb).
  exists op. split; [by eapply group_by_project_elem|done].
Qed.

(** *** Reading the results *)

Lemma check_op_results_passed bb passed : forall rest,
  Forall (fun e => or_success e = true) passed ->
  check_op_results bb (passed ++ rest) = check_op_results bb rest.
Proof.
  induction passed as [|e passed IH]; intros rest Hall; [done|].
  inversion_clear Hall as [|?? He Hrest]. simpl. rewrite He. by apply IH.
Qed.

Lemma check_results_accepted_one bb result rest :
  accepted result ->
  check_results bb (result :: rest) = check_results bb rest.
Proof.
  intros [Hs|(op_results & Hops & Hall)]; simpl.
  - by rewrite Hs.
  - destruct (get_success result); [done|]. rewrite Hops.
    rewrite <- (app_nil_r op_results).
    by rewrite (check_op_results_passed _ _ [] Hall).
Qed.

Lemma check_results_accepted bb pre : forall rest,
  Forall accepted pre ->
  check_results bb (pre ++ rest) = check_results bb rest.
Proof.
  induction pre as [|r pre IH]; intros rest Hall; [done|].
  inversion_clear Hall as [|?? Hr Hpre]. cbn [app].
  rewrite (check_results_accepted_one _ _ _ Hr). by apply IH.
Qed.

(** A failed entry that names no operation of the commit ends in the
    [KeyError] of [body_by_id[operation_id]]. *)
Lemma check_op_results_unknown_id bb e rest :
  or_success e = false -> bb !! or_id e = None ->
  check_op_results bb (e :: rest) = Raise (KeyError (or_id e)).
Proof. intros He Hid. simpl. by rewrite He, Hid. Qed.

(** The sibling path: the convenience constructors flush what was
    deferred under the id of the operation they add. *)
Lemma add_or_nest_flushes op deferred s :
  _nested_operations s !! id op = Some deferred ->
  add_or_nest op None s
  = mkRun (Ok tt)
      (set_nested_operations (delete (id op) (_nested_operations s))
         (set_operations (_operations s ++ op :: deferred) s)) [].
Proof.
  intros H. unfold add_or_nest. unfold bind at 1 2. unfold get.
  cbn [add modify returned session sent set_operations _nested_operations app].
  rewrite H. unfold bind, modify. cbn [returned session sent app].
  rewrite extend_run. cbn. by rewrite <- app_assoc.
Qed.

(** *** The claims about the session *)

(** What the convenience constructors do after adding the operation they
    built: the operations deferred under that operation's id follow it in
    the queue, in the order they were deferred, and the entry is gone from
    the deferral map.  [add] itself has no such step ([add_run]). *)
Lemma add_or_nest_order op deferred s :
  _nested_operations s !! id op = Some deferred ->
  let r := add_or_nest op None s in
  returned r = Ok tt
  /\ _operations (session r) = _operations s ++ op :: deferred
  /\ _nested_operations (session r) !! id op = None.
Proof.
  intros H. cbn zeta. rewrite (add_or_nest_flushes _ _ _ H). simpl.
  by rewrite lookup_delete_eq.
Qed.

(** C2. [commit] detaches the whole ready queue before it talks to the
    transport: the requests it sends are the batches planned from the
    detached queue (up to the point where the call stops), whatever is
    added to the session while the commit is in flight; the queue the
    session holds when [commit] ends, normally or not, is exactly what
    was added in flight, in order; the deferral map is untouched; and on
    an empty queue [commit] returns successfully without any exchange
    with the transport. *)
Theorem commit_detaches_queue s :
  let r := commit post s in
  (fst <$> sent r) `prefix_of` batches (_operations s)
  /\ _operations (session r) = flat_map (fun ex => po_added (snd ex)) (sent r)
  /\ _nested_operations (session r) = _nested_operations s
  /\ commit post (set_operations [] s) = mkRun (Ok tt) (set_operations [] s) [].
Proof.
  cbn zeta. destruct (commit_sent_session s) as [-> ->].
  split; [apply submit_projects_prefix|].
  destruct (submit_projects_session (group_by_project (_operations s))
              ∅ [] (set_operations [] s)) as [Hq Hn].
  split; [exact Hq|]. split; [exact Hn|]. by apply commit_nil.
Qed.


(** C5 (as the code has it). When every operation of the queue renders
    without raising and no call to the transport raises, all the batches
    planned from the detached queue are handed to the transport, in order,
    and what [commit] returns or raises is what reading all the collected
    responses in order gives: what a response says, failure included,
    stops no later submission, and the failure is raised only once every
    batch has been sent. *)
Theorem commit_submits_every_batch s :
  Forall renders (_operations s) ->
  all_answered (sent (commit post s)) ->
  fst <$> sent (commit post s) = batches (_operations s)
  /\ returned (commit post s)
      = check_results (bodies_of (_operations s))
          (responses (sent (commit post s))).
Proof. intros Hall Hans. by destruct (commit_answered s Hall Hans). Qed.

(** C6. An Update operation with an empty change-set has no wire
    rendering; no batch [commit] sends contains a body for it; a project
    all of whose operations render to nothing costs no call (the loop
    passes it over, and no request is ever sent with an empty list); and
    [add] still appends the operation to the ready queue. *)
Theorem empty_update_is_skipped s base eid :
  let update := UpdateOperation base eid ∅ in
  update ∈ _operations s ->
  NoDup (id <$> _operations s) ->
  to_server_operation update = Ok None
  /\ Forall (fun ex =>
              rq_operations (fst ex) <> []
              /\ Forall (fun body => so_id body <> id update)
                   (rq_operations (fst ex)))
       (sent (commit post s))
  /\ (forall project ops parts bb results s',
        Forall (fun op => to_server_operation op = Ok None) ops ->
        submit_projects post ((project, ops) :: parts) bb results s'
        = submit_projects post parts bb results s')
  /\ (forall s', _operations (session (add (PyOperation update) s'))
                 = _operations s' ++ [update]).
Proof.
  intros update Hin Hnd. split; [done|]. split; [|split].
  - apply Forall_forall. intros ex Hex. split.
    + destruct (commit_sent_session s) as [Hsent _]. rewrite Hsent in Hex.
      by eapply submit_projects_nonempty.
    + apply Forall_forall. intros body Hbody Hid.
      destruct (commit_bodies s ex body Hex Hbody) as (op & Hop & Hb).
      pose proof (to_server_operation_id _ _ Hb) as Hso.
      assert (op = update) as ->.
      { apply (NoDup_id_inj _ _ _ Hnd Hop Hin). congruence. }
      done.
  - intros project ops parts bb results s' Hnone.
    rewrite submit_projects_cons.
    assert (render_operations ops bb [] = Ok (bb, [])) as ->; [|done].
    induction Hnone as [|op ops Hop _ IH]; [done|].
    cbn [render_operations]. by rewrite Hop.
  - done.
Qed.

(** C9. A response whose overall flag is false but whose breakdown has
    only successful entries raises nothing: [commit] goes on as if that
    response had carried a true flag. *)
Theorem commit_passes_all_true_breakdown s pre result rest op_results :
  Forall renders (_operations s) ->
  all_answered (sent (commit post s)) ->
  responses (sent (commit post s)) = pre ++ result :: rest ->
  get_success result = false ->
  rd_operations result = Some op_results ->
  Forall (fun e => or_success e = true) op_results ->
  check_results (bodies_of (_operations s)) [result] = Ok tt
  /\ returned (commit post s)
      = check_results (bodies_of (_operations s))
          (pre ++ {| rd_success := Some true;
                     rd_operations := Some op_results |} :: rest).
Proof.
  intros Hall Hans Hresp Hfail Hops Hpass.
  assert (accepted result) as Hacc by (right; eauto).
  split.
  - by rewrite (check_results_accepted_one _ _ _ Hacc).
  - destruct (commit_answered s Hall Hans) as [-> _]. rewrite Hresp.
    revert Hacc. generalize (bodies_of (_operations s)). clear.
    induction pre as [|r pre IH]; intros bb Hacc; cbn [app].
    + by rewrite (check_results_accepted_one _ _ _ Hacc).
    + simpl. rewrite (IH bb Hacc). done.
Qed.

(** C10. [remove] of something that is not in the ready queue raises
    [ValueError] and leaves the session as it was; otherwise it takes out
    the first occurrence, and only that one, and leaves the deferral map
    (and the transport) alone. *)
Theorem remove_first_occurrence_or_raise s x :
  (Forall (fun y => py_eq x y = false) (_operations s) ->
     remove x s
     = mkRun (Raise (ValueError "list.remove(x): x not in list")) s [])
  /\ (forall before y after,
        _operations s = before ++ y :: after ->
        Forall (fun z => py_eq x z = false) before ->
        py_eq x y = true ->
        remove x s = mkRun (Ok tt) (set_operations (before ++ after) s) []
        /\ _nested_operations (session (remove x s)) = _nested_operations s).
Proof.
  assert (forall l, Forall (fun y => py_eq x y = false) l ->
                    list_remove x l = None) as Hnone.
  { induction l as [|y l IH]; intros Hall; [done|].
    inversion_clear Hall as [|?? Hy Hl]. simpl. by rewrite Hy, (IH Hl). }
  assert (forall before y after,
            Forall (fun z => py_eq x z = false) before -> py_eq x y = true ->
            list_remove x (before ++ y :: after) = Some (before ++ after))
    as Hsome.
  { induction before as [|z before IH]; intros y after Hall Hy; simpl.
    - by rewrite Hy.
    - inversion_clear Hall as [|?? Hz Hb]. by rewrite Hz, (IH _ _ Hb Hy). }
  split.
  - intros Hall. unfold remove, bind, get. cbn [returned session sent].
    by rewrite (Hnone _ Hall).
  - intros before y after Hq Hall Hy.
    assert (remove x s = mkRun (Ok tt) (set_operations (before ++ after) s) [])
      as ->; [|done].
    unfold remove, bind, get. cbn [returned session sent].
    by rewrite Hq, (Hsome _ _ _ Hall Hy).
Qed.
End SessionProperties.

Example sample_waiting :
  _operations Sample.waiting = []
  /\ _nested_operations Sample.waiting !! "folder-operation"
     = Some [Sample.subset; Sample.subset2].
Proof. split; reflexivity. Qed.

Example sample_commit :
  fst <$> sent (commit Sample.accepting
                  (Sample.session_of [Sample.folder; Sample.noop; Sample.drop]))
  = batches [Sample.folder; Sample.noop; Sample.drop].
Proof. vm_compute. reflexivity. Qed.

(** ** Entity ids at construction *)

(** The transport adds [late] to the session during each call: the batches
    are those of the detached queue, and [late] waits in the queue for the
    next commit. *)
Example sample_commit_in_flight :
  let r := commit Sample.chatty
             (Sample.session_of [Sample.folder; Sample.noop; Sample.drop]) in
  returned r = Ok tt
  /\ fst <$> sent r = batches [Sample.folder; Sample.noop; Sample.drop]
  /\ length (batches [Sample.folder; Sample.noop; Sample.drop]) = 2
  /\ _operations (session r) = [Sample.late; Sample.late].
Proof. repeat split; vm_compute; reflexivity. Qed.

Example uuid_accepts :
  Uuid.UUID "{12345678-1234-5678-1234-567812345678}" = Ok tt
  /\ Uuid.UUID "urn:uuid:12345678123456781234567812345678" = Ok tt
  /\ _create_or_convert_to_id "new" VNone = Ok (VStr "new").
Proof. repeat split; reflexivity. Qed.

(** [uuid.UUID] reads what [int(hex, 16)] reads in 32 characters: a
    prefix, a sign, blanks around the digits and underscores between them
    count for the length and pass. *)
Example uuid_accepts_int_literals :
  Uuid.UUID "0x123456781234567812345678123456" = Ok tt
  /\ Uuid.UUID "+1234567812345678123456781234567" = Ok tt
  /\ Uuid.UUID "  123456781234567812345678123456" = Ok tt
  /\ Uuid.UUID "1_1_1_1_1_1_1_1_1_1_1_1_1_1_1_11" = Ok tt
  /\ Uuid.UUID "1234567812345678123456781234567g"
     = Raise (ValueError "invalid literal for int() with base 16")
  /\ Uuid.UUID "1234567812345678123456781234567_"
     = Raise (ValueError "invalid literal for int() with base 16").
Proof. repeat split; vm_compute; reflexivity. Qed.

(** Where the identifier check lives: [_create_or_convert_to_id], which
    the entity skeleton builders call, refuses what [uuid.UUID] refuses. *)
Lemma _create_or_convert_to_id_validates new_id s e :
  Uuid.UUID s = Raise e -> _create_or_convert_to_id new_id (VStr s) = Raise e.
Proof. intros H. simpl. by rewrite H. Qed.

(** C4 fails on the code: an id that [uuid.UUID] refuses is taken by all
    three constructors, and ends up in the wire rendering. *)
Lemma invalid_entity_id_accepted :
  Uuid.UUID "not-a-uuid"
    = Raise (ValueError "badly formed hexadecimal UUID string")
  /\ (exists op body,
        UpdateOperation__init__ (Sample.fresh 3 "rename") "alpha" "folder"
          (VStr "not-a-uuid") Sample.changes = Ok op
        /\ to_server_operation op = Ok (Some body)
        /\ so_entityId body = VStr "not-a-uuid")
  /\ (exists op body,
        DeleteOperation__init__ (Sample.fresh 5 "drop") "beta" "version"
          (VStr "not-a-uuid") = Ok op
        /\ to_server_operation op = Ok (Some body)
        /\ so_entityId body = VStr "not-a-uuid")
  /\ (exists op body,
        CreateOperation__init__ (Sample.fresh 1 "folder") "alpha" "folder"
          (Some {["id" := VStr "not-a-uuid"]}) = Ok op
        /\ to_server_operation op = Ok (Some body)
        /\ so_entityId body = VStr "not-a-uuid").
Proof.
  split; [reflexivity|].
  split; [|split]; eexists; eexists; (split; [reflexivity|]);
    (split; [reflexivity|reflexivity]).
Qed.

(** C4 (as the code has it). The constructors of the three operations do
    not check the entity id: for every caller-supplied id, of whatever
    form, construction returns an operation, whose entity id is the id as
    given. *)
Theorem constructors_take_any_entity_id
    (rt : Fresh) (project entity : string) (eid : value)
    (update_data data : gmap string value) :
  (exists op, UpdateOperation__init__ rt project entity eid update_data = Ok op
              /\ entity_id op = Ok eid
              /\ od_entity_id (to_data op) = Some eid)
  /\ (exists op, DeleteOperation__init__ rt project entity eid = Ok op
                 /\ entity_id op = Ok eid
                 /\ od_entity_id (to_data op) = Some eid)
  /\ (exists op, CreateOperation__init__ rt project entity
                   (Some (<["id" := eid]> data)) = Ok op
                 /\ entity_id op = Ok eid).
Proof.
  split; [|split]; eexists; (split; [reflexivity|]); simpl; try done.
  by rewrite lookup_insert_eq, lookup_insert_eq.
Qed.

(** ** The deferral map and [add] *)

(** C1 fails on [add]: with two subsets deferred under the folder's
    operation id, [add(folder)] leaves the queue with the folder alone and
    the subsets still deferred, and the commit that follows sends the
    folder only. *)
Theorem add_keeps_deferred_operations :
  _nested_operations Sample.waiting !! id Sample.folder
    = Some [Sample.subset; Sample.subset2]
  /\ returned (add (PyOperation Sample.folder) Sample.waiting) = Ok tt
  /\ _operations (session (add (PyOperation Sample.folder) Sample.waiting))
     = [Sample.folder]
  /\ _nested_operations (session (add (PyOperation Sample.folder) Sample.waiting))
       !! id Sample.folder
     = Some [Sample.subset; Sample.subset2]
  /\ fst <$> sent (commit Sample.accepting
                     (session (add (PyOperation Sample.folder) Sample.waiting)))
     = [operations_request "alpha"
          [ {| so_id := "folder-operation"; so_type := "create";
               so_entityType := "folder";
               so_entityId := VStr "folder-entity";
               so_data := Some {["id" := VStr "folder-entity"]} |} ]].
Proof. repeat split; vm_compute; reflexivity. Qed.

(** ** Failure of one partition *)

(** C5 fails on the code: the transport answers every batch with a
    failure, the first answer is already a failure, and the batch of the
    second project is sent all the same; the commit then raises for the
    first answer. *)
Lemma commit_submits_after_failed_response :
  exists first second,
    sent (commit Sample.rejecting
            (Sample.session_of [Sample.folder; Sample.drop]))
      = [first; second]
    /\ rq_path (fst first) = "projects/alpha/operations"
    /\ po_result (snd first) = Ok Sample.failure
    /\ rq_path (fst second) = "projects/beta/operations"
    /\ returned (commit Sample.rejecting
                   (Sample.session_of [Sample.folder; Sample.drop]))
       = Raise (FailedOperations (OperationFailedContent Sample.failure)).
Proof. eexists. eexists. repeat split; vm_compute; reflexivity. Qed.


(** C8 fails on the code: the folder is constructed with a generated id,
    a [set_value] call then assigns ["id"], and the entity id and the
    three renderings carry the assigned id, not the one of the
    construction. *)
Lemma create_entity_id_reassigned :
  entity_id Sample.folder = Ok (VStr "folder-entity")
  /\ entity_id (set_value "id" Cases.uuid Sample.folder) = Ok Cases.uuid
  /\ create_ids_are (set_value "id" Cases.uuid Sample.folder) Cases.uuid
  /\ Cases.uuid <> VStr "folder-entity".
Proof.
  split; [reflexivity|]. split; [reflexivity|]. split; [|discriminate].
  apply create_ids_are_intro. reflexivity.
Qed.

(** ** The theorems at work on the sample session *)

Lemma update_renders_removed_as_None_witness :
  exists changes body data,
    od_changes (to_data Sample.rename) = Some changes
    /\ changes !! "label" = Some VNone
    /\ to_server_operation Sample.rename = Ok (Some body)
    /\ so_data body = Some data
    /\ data !! "label" = Some VNone
    /\ forall other, Sample.changes !! other = None ->
         changes !! other = None /\ data !! other = None.
Proof.
  apply (update_renders_removed_as_None
           (AbstractOperation__init__ (Sample.fresh 3 "rename") "alpha" "folder")
           (VStr "folder-entity") Sample.changes "label").
  reflexivity.
Defined.

Lemma create_entity_id_fixed_witness :
  entity_id Sample.folder = Ok (VStr "folder-entity")
  /\ create_ids_are
       (set_values [("name", VStr "shots"); ("id", Cases.uuid);
                    ("label", VNone)] Sample.folder)
       Cases.uuid
  /\ create_ids_are
       (set_values [("name", VStr "shots"); ("label", VNone)] Sample.folder)
       (VStr "folder-entity").
Proof.
  pose proof (create_entity_id_fixed (Sample.fresh 1 "folder") "alpha" "folder"
                None
                [("name", VStr "shots"); ("id", Cases.uuid); ("label", VNone)]
                Sample.folder eq_refl) as (Hid & Hafter & _).
  pose proof (create_entity_id_fixed (Sample.fresh 1 "folder") "alpha" "folder"
                None [("name", VStr "shots"); ("label", VNone)]
                Sample.folder eq_refl) as (_ & _ & Hkept).
  split; [exact Hid|]. split; [exact Hafter|].
  apply Hkept.
  repeat (apply List.Forall_cons; [discriminate|]). apply List.Forall_nil.
Defined.


Lemma commit_submits_every_batch_witness :
  fst <$> sent (commit Sample.rejecting
                  (Sample.session_of [Sample.folder; Sample.drop]))
    = batches [Sample.folder; Sample.drop]
  /\ returned (commit Sample.rejecting
                 (Sample.session_of [Sample.folder; Sample.drop]))
     = check_results (bodies_of [Sample.folder; Sample.drop])
         (responses (sent (commit Sample.rejecting
                             (Sample.session_of [Sample.folder; Sample.drop])))).
Proof.
  apply (commit_submits_every_batch Sample.rejecting
           (Sample.session_of [Sample.folder; Sample.drop])).
  - each_renders.
  - each_answered.
Defined.

Lemma empty_update_is_skipped_witness :
  to_server_operation Sample.noop = Ok None
  /\ Forall (fun ex =>
               rq_operations (fst ex) <> []
               /\ Forall (fun body => so_id body <> id Sample.noop)
                    (rq_operations (fst ex)))
       (sent (commit Sample.accepting
                (Sample.session_of [Sample.folder; Sample.noop; Sample.drop]))).
Proof.
  destruct (empty_update_is_skipped Sample.accepting
              (Sample.session_of [Sample.folder; Sample.noop; Sample.drop])
              (AbstractOperation__init__ (Sample.fresh 4 "noop") "alpha" "folder")
              (VStr "folder-entity"))
    as (Hnone & Hsent & _).
  - right. left.
  - by_computation.
  - split; [exact Hnone|exact Hsent].
Defined.

Lemma commit_passes_all_true_breakdown_witness :
  check_results (bodies_of [Sample.folder; Sample.drop]) [Sample.all_passed]
    = Ok tt
  /\ returned (commit (Sample.answer [] Sample.all_passed)
                 (Sample.session_of [Sample.folder; Sample.drop]))
     = check_results (bodies_of [Sample.folder; Sample.drop])
         ([] ++ {| rd_success := Some true;
                   rd_operations := rd_operations Sample.all_passed |}
             :: [Sample.all_passed]).
Proof.
  apply (commit_passes_all_true_breakdown (Sample.answer [] Sample.all_passed)
           (Sample.session_of [Sample.folder; Sample.drop])
           [] Sample.all_passed [Sample.all_passed]).
  - each_renders.
  - each_answered.
  - vm_compute. reflexivity.
  - reflexivity.
  - reflexivity.
  - repeat (apply List.Forall_cons; [reflexivity|]). apply List.Forall_nil.
Defined.

Lemma remove_first_occurrence_or_raise_witness :
  remove (PyOperation Sample.late)
    (Sample.session_of [Sample.folder; Sample.drop])
  = mkRun (Raise (ValueError "list.remove(x): x not in list"))
      (Sample.session_of [Sample.folder; Sample.drop]) []
  /\ remove (PyOperation Sample.drop)
       (Sample.session_of [Sample.folder; Sample.drop; Sample.noop; Sample.drop])
     = mkRun (Ok tt)
         (Sample.session_of [Sample.folder; Sample.noop; Sample.drop]) [].
Proof.
  split.
  - apply (remove_first_occurrence_or_raise
             (Sample.session_of [Sample.folder; Sample.drop])
             (PyOperation Sample.late)).
    repeat (apply List.Forall_cons; [reflexivity|]). apply List.Forall_nil.
  - apply (remove_first_occurrence_or_raise
             (Sample.session_of
                [Sample.folder; Sample.drop; Sample.noop; Sample.drop])
             (PyOperation Sample.drop))
      with (before := [Sample.folder]) (y := Sample.drop)
           (after := [Sample.noop; Sample.drop]).
    + reflexivity.
    + repeat (apply List.Forall_cons; [reflexivity|]). apply List.Forall_nil.
    + reflexivity.
Defined.


(** ** Further properties of the session *)

Section MoreSessionProperties.
Context {Conn : Type}.
Variable post : Conn -> Request -> PostOutcome Conn.

Implicit Types (s : OperationsSession Conn) (op : Operation).

(** X1. [extend] is not all-or-nothing: it appends the operations that
    precede the first object that is not an operation, then raises
    [TypeError] for that object and leaves the rest out; it returns
    normally exactly when every object is an operation.  It never talks
    to the transport and never touches the deferral map. *)
Theorem extend_stops_at_first_non_operation (l : list pyobject) s :
  session (extend l s)
    = set_operations (_operations s ++ leading_operations l) s
  /\ sent (extend l s) = []
  /\ returned (extend l s)
     = if forallb is_operation l then Ok tt
       else Raise (TypeError "Expected Operation object got {}").
Proof.
  revert s. induction l as [|[op|n] l IH]; intros s.
  - simpl. by rewrite app_nil_r, set_operations_same.
  - cbn [extend leading_operations forallb is_operation andb].
    unfold bind. rewrite add_run. cbn [returned session sent app].
    destruct (IH (set_operations (_operations s ++ [op]) s)) as (-> & -> & ->).
    split; [|done]. unfold set_operations. simpl. by rewrite <- app_assoc.
  - simpl. by rewrite app_nil_r, set_operations_same.
Qed.

(** [clear] empties the ready queue and nothing else: what is deferred
    stays in the deferral map, and a commit that follows has no exchange
    with the transport and returns normally. *)
Lemma clear_keeps_deferred s :
  returned (clear s) = Ok tt
  /\ _operations (session (clear s)) = []
  /\ _nested_operations (session (clear s)) = _nested_operations s
  /\ _con (session (clear s)) = _con s
  /\ commit post (session (clear s)) = mkRun (Ok tt) (session (clear s)) [].
Proof. repeat split. Qed.

Lemma add_or_nest_defers op c k s :
  add_or_nest op (Some (String c k)) s
  = mkRun (Ok tt)
      (set_nested_operations
         (<[String c k :=
              default [] (_nested_operations s !! String c k) ++ [op]]>
            (_nested_operations s)) s) [].
Proof. reflexivity. Qed.

Lemma add_or_nest_plain op nested_id s :
  nested_id = None \/ nested_id = Some "" ->
  _nested_operations s !! id op = None ->
  add_or_nest op nested_id s
  = mkRun (Ok tt) (set_operations (_operations s ++ [op]) s) [].
Proof.
  intros Hn H.
  assert (add_or_nest op nested_id s = add_or_nest op None s) as ->
    by (by destruct Hn as [->| ->]).
  unfold add_or_nest. unfold bind at 1 2. unfold get.
  cbn [add modify returned session sent set_operations _nested_operations app].
  by rewrite H.
Qed.

(** X2. A convenience constructor given a dependency reference (any
    non-empty [nested_id]) never puts the new operation in the ready
    queue: it appends it to the deferral-map entry of that reference,
    after the operations deferred there earlier, and returns it. *)
Theorem constructors_defer_under_nested_id
    rt project entity data eid update_data key s :
  key <> "" ->
  deferred_under key s (create_entity rt project entity data (Some key) s)
  /\ deferred_under key s
       (update_entity rt project entity eid update_data (Some key) s)
  /\ deferred_under key s (delete_entity rt project entity eid (Some key) s).
Proof.
  intros Hkey. destruct key as [|c k]; [done|].
  unfold create_entity, update_entity, delete_entity, deferred_under.
  split; [|split]; eexists; unfold bind, lift;
    cbn [returned session sent CreateOperation__init__
         UpdateOperation__init__ DeleteOperation__init__];
    rewrite add_or_nest_defers; cbn [returned session sent app ret];
    (split; [reflexivity|]); (split; [reflexivity|]);
    cbn [session set_nested_operations _nested_operations _operations _con];
    (split; [apply lookup_insert_eq|]);
    (split; [|done]); intros other Hother; by apply lookup_insert_ne.
Qed.

(** X3. A convenience constructor called without a dependency reference
    ([None] or the empty string), when nothing is deferred under the id
    the new operation receives, appends the operation to the ready queue
    and leaves the deferral map as it is. *)
Theorem constructors_add_last
    rt project entity data eid update_data nested_id s :
  nested_id = None \/ nested_id = Some "" ->
  _nested_operations s !! fresh_uuid4 rt = None ->
  added_last s (create_entity rt project entity data nested_id s)
  /\ added_last s
       (update_entity rt project entity eid update_data nested_id s)
  /\ added_last s (delete_entity rt project entity eid nested_id s).
Proof.
  intros Hn Hfree.
  unfold create_entity, update_entity, delete_entity, added_last.
  split; [|split]; eexists; unfold bind, lift;
    cbn [returned session sent CreateOperation__init__
         UpdateOperation__init__ DeleteOperation__init__];
    rewrite (add_or_nest_plain _ _ _ Hn) by exact Hfree;
    cbn [returned session sent app ret]; done.
Qed.

(** X4. The flush of the convenience constructors goes one level deep: the
    operations deferred under the new operation's id follow it into the
    queue, but what is deferred under the id of one of those stays in the
    deferral map. *)
Theorem flush_is_one_level_deep
    rt project entity data s children child grandchildren :
  _nested_operations s !! fresh_uuid4 rt = Some children ->
  child ∈ children ->
  id child <> fresh_uuid4 rt ->
  _nested_operations s !! id child = Some grandchildren ->
  let r := create_entity rt project entity data None s in
  exists op,
    returned r = Ok op
    /\ _operations (session r) = _operations s ++ op :: children
    /\ _nested_operations (session r) !! id op = None
    /\ _nested_operations (session r) !! id child = Some grandchildren.
Proof.
  intros Hchildren Hchild Hne Hgrand. cbn zeta.
  unfold create_entity. eexists. unfold bind, lift.
  cbn [returned session sent CreateOperation__init__].
  rewrite (add_or_nest_flushes _ children) by exact Hchildren.
  cbn [returned session sent app ret set_nested_operations set_operations
       _nested_operations _operations].
  split; [reflexivity|]. split; [reflexivity|].
  split; [apply lookup_delete_eq|].
  rewrite lookup_delete_ne; [exact Hgrand|]. cbn. congruence.
Qed.

(** Every exchange of the first loop of [commit] is a call of [post]. *)
Lemma submit_projects_calls parts : forall bb results s ex,
  ex ∈ sent (submit_projects post parts bb results s) ->
  exists c, snd ex = post c (fst ex).
Proof.
  induction parts as [|[project ops] parts IH]; intros bb results s ex.
  - simpl. by intros ?%elem_of_nil.
  - rewrite submit_projects_cons.
    destruct (render_operations ops bb []) as [e|[bb' [|b bodies]]].
    + simpl. by intros ?%elem_of_nil.
    + apply IH.
    + cbn zeta. destruct (po_result _) as [e|d]; cbn [sent].
      * intros ->%list_elem_of_singleton. by eexists.
      * intros [->|Hin]%elem_of_cons; [by eexists|]. by eapply IH.
Qed.

(** X5. With a transport that adds nothing to the session, [commit]
    leaves the ready queue empty however it ends, so the operations of a
    commit that failed are not kept for a retry: a second [commit] has no
    exchange with the transport and returns normally. *)
Theorem commit_does_not_keep_operations s :
  (forall c rq, po_added (post c rq) = []) ->
  _operations (session (commit post s)) = []
  /\ commit post (session (commit post s))
     = mkRun (Ok tt) (session (commit post s)) [].
Proof.
  intros Hquiet.
  assert (_operations (session (commit post s)) = []) as Hempty.
  { destruct (commit_sent_session post s) as [_ ->].
    destruct (submit_projects_session post (group_by_project (_operations s))
                ∅ [] (set_operations [] s)) as [-> _].
    cbn [set_operations _operations app].
    generalize (submit_projects_calls (group_by_project (_operations s))
                  ∅ [] (set_operations [] s)).
    generalize (sent (submit_projects post (group_by_project (_operations s))
                        ∅ [] (set_operations [] s))).
    induction l as [|ex l IH]; intros Hcalls; [done|].
    cbn [flat_map]. destruct (Hcalls ex) as [c ->]; [left|].
    rewrite Hquiet. cbn [app]. apply IH. intros ex' Hex'.
    apply Hcalls. by right. }
  split; [exact Hempty|]. by apply commit_nil.
Qed.

(** A call that raised is the last exchange of the first loop, and the
    loop ends with its exception. *)
Lemma submit_projects_fault parts : forall bb results s ex e,
  ex ∈ sent (submit_projects post parts bb results s) ->
  po_result (snd ex) = Raise e ->
  returned (submit_projects post parts bb results s) = Raise e
  /\ last (sent (submit_projects post parts bb results s)) = Some ex.
Proof.
  induction parts as [|[project ops] parts IH]; intros bb results s ex e.
  - simpl. by intros ?%elem_of_nil.
  - rewrite submit_projects_cons.
    destruct (render_operations ops bb []) as [e'|[bb' [|b bodies]]].
    + simpl. by intros ?%elem_of_nil.
    + apply IH.
    + cbn zeta. destruct (po_result _) as [e'|d] eqn:Ho; cbn [sent returned].
      * intros ->%list_elem_of_singleton. cbn [snd]. rewrite Ho.
        by intros [= ->].
      * intros [->|Hin]%elem_of_cons.
        { cbn [snd]. rewrite Ho. done. }
        intros He. destruct (IH _ _ _ _ _ Hin He) as [Hr Hl].
        split; [done|]. rewrite last_cons, Hl. done.
Qed.

(** X6. An exception raised by the transport during a call ends the
    commit at once: [commit] raises that same exception, and the call was
    the last exchange, so the batches of the projects after it are not
    submitted. *)
Theorem commit_propagates_transport_fault s ex e :
  ex ∈ sent (commit post s) ->
  po_result (snd ex) = Raise e ->
  returned (commit post s) = Raise e
  /\ last (sent (commit post s)) = Some ex.
Proof.
  intros Hex He.
  destruct (decide (_operations s = [])) as [Hnil|Hne].
  { rewrite (commit_nil _ _ Hnil) in Hex. by apply elem_of_nil in Hex. }
  revert Hex. rewrite (commit_cons _ _ Hne). cbn zeta. intros Hex.
  assert (ex ∈ sent (submit_projects post (group_by_project (_operations s))
                       ∅ [] (set_operations [] s))) as Hex'.
  { by destruct (returned (submit_projects _ _ _ _ _)). }
  destruct (submit_projects_fault _ _ _ _ _ _ Hex' He) as [Hr Hl].
  rewrite Hr. done.
Qed.

Lemma record_bodies_absent l : forall bb k,
  bb !! k = None ->
  (forall op, op ∈ l -> id op = k -> rendered op = None) ->
  record_bodies l bb !! k = None.
Proof.
  induction l as [|x l IH]; intros bb k Hbb Hl; [done|].
  rewrite record_bodies_cons. apply IH.
  - destruct (rendered x) as [body|] eqn:E; [|done].
    rewrite lookup_insert_ne; [done|]. intros Hid.
    specialize (Hl x (list_elem_of_here _ _) Hid). congruence.
  - intros op Hop. apply Hl. by right.
Qed.

Lemma bodies_of_absent operations k :
  (forall op, op ∈ operations -> id op = k -> rendered op = None) ->
  bodies_of operations !! k = None.
Proof.
  intros H. unfold bodies_of. apply record_bodies_absent; [done|].
  intros op Hop. apply H. by rewrite <- (group_by_project_flat operations).
Qed.

(** X7. When the first failed entry of a breakdown names an id for which
    the commit sent no body (no operation of the queue has it, or the one
    that has it rendered to nothing), [commit] ends with the [KeyError] of
    the lookup in [body_by_id], not with [FailedOperations]. *)
Theorem commit_unknown_operation_id s pre result rest passed e later :
  Forall renders (_operations s) ->
  all_answered (sent (commit post s)) ->
  responses (sent (commit post s)) = pre ++ result :: rest ->
  Forall accepted pre ->
  get_success result = false ->
  rd_operations result = Some (passed ++ e :: later) ->
  Forall (fun x => or_success x = true) passed ->
  or_success e = false ->
  (forall op, op ∈ _operations s -> id op = or_id e ->
     to_server_operation op = Ok None) ->
  returned (commit post s) = Raise (KeyError (or_id e)).
Proof.
  intros Hall Hans Hresp Hpre Hfail Hops Hpassed He Hunknown.
  destruct (commit_answered post s Hall Hans) as [-> _].
  rewrite Hresp, (check_results_accepted _ _ _ Hpre). simpl.
  rewrite Hfail, Hops, (check_op_results_passed _ _ _ Hpassed). simpl.
  rewrite He, bodies_of_absent; [done|].
  intros op Hop Hid. unfold rendered. by rewrite (Hunknown op Hop Hid).
Qed.

(** X8. A response whose overall flag is true is accepted without a look
    at its breakdown: when every response carries a true flag, [commit]
    returns normally, whatever the entries say. *)
Theorem commit_trusts_success_flag s :
  Forall renders (_operations s) ->
  all_answered (sent (commit post s)) ->
  Forall (fun result => get_success result = true)
    (responses (sent (commit post s))) ->
  returned (commit post s) = Ok tt.
Proof.
  intros Hall Hans Hok.
  destruct (commit_answered post s Hall Hans) as [-> _].
  rewrite <- (app_nil_r (responses _)).
  rewrite check_results_accepted; [done|].
  eapply Forall_impl; [exact Hok|]. intros r Hr. by left.
Qed.
End MoreSessionProperties.

(** *** The partition by project *)

Lemma of_project_snoc project operations op :
  of_project project (operations ++ [op])
  = of_project project operations
    ++ (if decide (project_name op = project) then [op] else []).
Proof.
  unfold of_project. rewrite filter_app. f_equal.
Qed.

Lemma dict_append_partitions operations op keys :
  NoDup keys ->
  dict_append (project_name op) op
    ((fun q => (q, of_project q operations)) <$> keys)
  = ((fun q => (q, of_project q (operations ++ [op]))) <$> keys)
    ++ (if decide (project_name op ∈ keys) then []
        else [(project_name op, [op])]).
Proof.
  induction keys as [|k keys IH]; intros Hnd; [done|].
  apply NoDup_cons in Hnd as [Hk Hnd].
  rewrite !fmap_cons. cbn [dict_append]. rewrite of_project_snoc.
  case_bool_decide as Hkp.
  - subst k. destruct (decide (project_name op = project_name op)); [|done].
    destruct (decide (project_name op ∈ project_name op :: keys)) as [_|Hn];
      [|by destruct Hn; left].
    rewrite app_nil_r. f_equal.
    apply list_fmap_ext. intros i q Hq. rewrite of_project_snoc.
    destruct (decide (project_name op = q)) as [<-|_]; [|by rewrite app_nil_r].
    destruct Hk. by eapply list_elem_of_lookup_2.
  - destruct (decide (project_name op = k)) as [Heq|_]; [by subst|].
    rewrite app_nil_r, (IH Hnd). cbn [app]. do 2 f_equal.
    destruct (decide (project_name op ∈ keys)) as [Hin|Hnin];
      destruct (decide (project_name op ∈ k :: keys)) as [Hin'|Hnin'];
      try done.
    + destruct Hnin'. by right.
    + apply elem_of_cons in Hin' as [?|?]; by subst.
Qed.

Lemma projects_in_order_snoc operations op :
  projects_in_order (operations ++ [op])
  = projects_in_order operations
    ++ (if decide (project_name op ∈ projects_in_order operations) then []
        else [project_name op]).
Proof.
  assert (project_name op ∈ projects_in_order operations
          <-> project_name op ∈ reverse (project_name <$> operations)) as Hiff.
  { unfold projects_in_order.
    by rewrite elem_of_reverse, elem_of_remove_dups. }
  unfold projects_in_order at 1. rewrite fmap_app, reverse_app.
  change (reverse (project_name <$> [op])) with [project_name op].
  cbn [app remove_dups].
  destruct (decide_rel elem_of _ _) as [Hin|Hnin];
    destruct (decide (project_name op ∈ projects_in_order operations))
      as [Hy|Hn]; try tauto.
  - by rewrite app_nil_r.
  - by rewrite reverse_cons.
Qed.

Lemma projects_in_order_NoDup operations : NoDup (projects_in_order operations).
Proof.
  unfold projects_in_order. rewrite reverse_Permutation.
  apply NoDup_remove_dups.
Qed.

Lemma of_project_absent operations project :
  project ∉ projects_in_order operations -> of_project project operations = [].
Proof.
  intros Hnin. unfold of_project.
  destruct (filter _ operations) as [|x l] eqn:E; [done|].
  assert (x ∈ filter (fun o => project_name o = project) operations)
    as [Hx Hxin]%list_elem_of_filter by (rewrite E; left).
  destruct Hnin. unfold projects_in_order.
  rewrite elem_of_reverse, elem_of_remove_dups, elem_of_reverse, <- Hx.
  by apply list_elem_of_fmap_2.
Qed.

Lemma group_by_project_of_project (operations : list Operation) :
  group_by_project operations
  = (fun q => (q, of_project q operations)) <$> projects_in_order operations.
Proof.
  induction operations as [|op operations IH] using rev_ind; [done|].
  unfold group_by_project in *. rewrite foldl_app. cbn [foldl].
  rewrite IH, (dict_append_partitions _ _ _ (projects_in_order_NoDup _)).
  rewrite projects_in_order_snoc, fmap_app. f_equal.
  destruct (decide (project_name op ∈ projects_in_order operations))
    as [Hy|Hn]; [done|].
  cbn [fmap list_fmap]. rewrite of_project_snoc.
  destruct (decide (project_name op = project_name op)); [|done].
  by rewrite (of_project_absent _ _ Hn).
Qed.

(** X9. The first step of [commit] is a stable partition: there is one
    group per project, the groups come in the order in which the projects
    first appear in the queue, and each group holds exactly the operations
    of its project, in queue order. *)
Theorem group_by_project_partitions (operations : list Operation) :
  group_by_project operations
  = (fun q => (q, of_project q operations)) <$> projects_in_order operations.
Proof. exact (group_by_project_of_project operations). Qed.

Lemma batches_per_project operations :
  batches operations
  = omap (fun q => batch_of (q, of_project q operations))
      (projects_in_order operations).
Proof.
  unfold batches. rewrite group_by_project_of_project.
  induction (projects_in_order operations) as [|q l IH]; [done|].
  rewrite fmap_cons. cbn [omap list_omap]. by rewrite IH.
Qed.

(** X10. The requests of a [commit], as far as it gets, are one per
    project that has something to send, in the order in which the projects
    first appear in the queue; each carries the renderings of all the
    operations of its project, in queue order, with [canFail] false, and
    none carries an empty list. *)
Theorem commit_sends_one_batch_per_project {Conn}
    (post : Conn -> Request -> PostOutcome Conn) (s : OperationsSession Conn) :
  (fst <$> sent (commit post s))
    `prefix_of` omap (fun q => batch_of (q, of_project q (_operations s)))
                  (projects_in_order (_operations s))
  /\ Forall (fun ex =>
              rq_canFail (fst ex) = false
              /\ rq_operations (fst ex) <> []
              /\ exists q,
                   q ∈ projects_in_order (_operations s)
                   /\ fst ex = operations_request q
                                 (omap rendered (of_project q (_operations s))))
       (sent (commit post s)).
Proof.
  assert ((fst <$> sent (commit post s))
            `prefix_of` omap (fun q => batch_of (q, of_project q (_operations s)))
                          (projects_in_order (_operations s))) as Hprefix.
  { rewrite <- batches_per_project.
    destruct (commit_sent_session post s) as [-> _].
    apply submit_projects_prefix. }
  split; [exact Hprefix|].
  apply Forall_forall. intros ex Hex.
  assert (fst ex ∈ omap (fun q => batch_of (q, of_project q (_operations s)))
                     (projects_in_order (_operations s))) as Hin.
  { destruct Hprefix as [k ->]. apply elem_of_app. left.
    by apply list_elem_of_fmap_2. }
  apply list_elem_of_omap in Hin as (q & Hq & Hbatch).
  unfold batch_of in Hbatch. cbn [fst snd] in Hbatch.
  destruct (omap rendered (of_project q (_operations s))) as [|b bodies] eqn:E;
    [done|].
  injection Hbatch as <-. cbn. split; [done|]. split; [done|].
  exists q. by rewrite E.
Qed.

(** ** Properties of [_prepare_update_data] *)

Section PrepareUpdateDataProperties.
Variable ne : value -> value -> bool.

Implicit Types (old_doc new_doc : gmap string value).

Lemma prepare_update_data_at old_doc new_doc replace key :
  _prepare_update_data ne old_doc new_doc replace !! key
  = match new_doc !! key, old_doc !! key with
    | Some v, Some old => if ne v old then Some v else None
    | Some v, None => Some v
    | None, Some _ => if replace then Some REMOVED_VALUE else None
    | None, None => None
    end.
Proof.
  unfold _prepare_update_data.
  set (first := map_fold _ ∅ new_doc).
  assert (forall k, first !! k
            = match new_doc !! k, old_doc !! k with
              | Some v, Some old => if ne v old then Some v else None
              | Some v, None => Some v
              | None, _ => None
              end) as Hfirst.
  { subst first.
    apply (map_fold_weak_ind (fun changes (m : gmap string value) =>
             forall k, changes !! k
               = match m !! k, old_doc !! k with
                 | Some v, Some old => if ne v old then Some v else None
                 | Some v, None => Some v
                 | None, _ => None
                 end)).
    - intros k. by rewrite !lookup_empty.
    - intros i x m r Hi IH k.
      destruct (decide (i = k)) as [->|Hik].
      + rewrite lookup_insert_eq. specialize (IH k). rewrite Hi in IH.
        destruct (old_doc !! k) as [old|].
        * destruct (ne x old); [by rewrite lookup_insert_eq|done].
        * by rewrite lookup_insert_eq.
      + rewrite (lookup_insert_ne m) by done. rewrite <- IH.
        destruct (old_doc !! i) as [old|].
        * destruct (ne x old); [by rewrite lookup_insert_ne|done].
        * by rewrite lookup_insert_ne. }
  destruct replace.
  - assert (forall k,
              map_fold (fun key (_ : value) changes =>
                          match new_doc !! key with
                          | None => <[key := REMOVED_VALUE]> changes
                          | Some _ => changes
                          end) first old_doc !! k
              = match old_doc !! k, new_doc !! k with
                | Some _, None => Some REMOVED_VALUE
                | _, _ => first !! k
                end) as Hsecond.
    { apply (map_fold_weak_ind (fun changes (m : gmap string value) =>
               forall k, changes !! k
                 = match m !! k, new_doc !! k with
                   | Some _, None => Some REMOVED_VALUE
                   | _, _ => first !! k
                   end)).
      - intros k. by rewrite lookup_empty.
      - intros i x m r Hi IH k.
        destruct (decide (i = k)) as [->|Hik].
        + rewrite lookup_insert_eq. specialize (IH k). rewrite Hi in IH.
          destruct (new_doc !! k); [done|]. by rewrite lookup_insert_eq.
        + rewrite (lookup_insert_ne m) by done. rewrite <- IH.
          destruct (new_doc !! i); [done|]. by rewrite lookup_insert_ne. }
    rewrite Hsecond, Hfirst.
    destruct (new_doc !! key), (old_doc !! key); done.
  - rewrite Hfirst. destruct (new_doc !! key), (old_doc !! key); done.
Qed.

(** X11. [_prepare_update_data] key by key: a key of [new_doc] is in the
    changes, with its new value, when [old_doc] lacks it or holds a
    different value; a key only [old_doc] has is in the changes, as
    [REMOVED_VALUE], when [replace] is set; no other key is. *)
Theorem prepare_update_data_lookup old_doc new_doc replace key :
  _prepare_update_data ne old_doc new_doc replace !! key
  = match new_doc !! key, old_doc !! key with
    | Some v, Some old => if ne v old then Some v else None
    | Some v, None => Some v
    | None, Some _ => if replace then Some REMOVED_VALUE else None
    | None, None => None
    end.
Proof. exact (prepare_update_data_at old_doc new_doc replace key). Qed.

Lemma prepare_update_data_nothing old_doc new_doc replace :
  _prepare_update_data ne old_doc new_doc replace = ∅
  <-> (forall key v, new_doc !! key = Some v ->
         exists old, old_doc !! key = Some old /\ ne v old = false)
      /\ (replace = true ->
          forall key, is_Some (old_doc !! key) -> is_Some (new_doc !! key)).
Proof.
  rewrite map_empty. split.
  - intros Hnone. split.
    + intros key v Hv. specialize (Hnone key).
      rewrite prepare_update_data_at, Hv in Hnone.
      destruct (old_doc !! key) as [old|]; [|done].
      exists old. split; [done|]. by destruct (ne v old).
    + intros -> key [old Hold]. specialize (Hnone key).
      rewrite prepare_update_data_at, Hold in Hnone.
      by destruct (new_doc !! key).
  - intros [Hnew Hold] key. rewrite prepare_update_data_at.
    destruct (new_doc !! key) as [v|] eqn:Hv.
    + destruct (Hnew key v Hv) as (old & -> & ->). done.
    + destruct (old_doc !! key) as [old|] eqn:Ho; [|done].
      destruct replace; [|done].
      destruct (Hold eq_refl key) as [? ?]; [by eexists|congruence].
Qed.

(** X12. The changes are empty exactly when the documents agree: every
    key of [new_doc] is in [old_doc] with a value the comparison does not
    tell apart, and, when [replace] is set, [old_doc] has no key that
    [new_doc] lacks. *)
Theorem prepare_update_data_empty old_doc new_doc replace :
  _prepare_update_data ne old_doc new_doc replace = ∅
  <-> (forall key v, new_doc !! key = Some v ->
         exists old, old_doc !! key = Some old /\ ne v old = false)
      /\ (replace = true ->
          forall key, is_Some (old_doc !! key) -> is_Some (new_doc !! key)).
Proof. exact (prepare_update_data_nothing old_doc new_doc replace). Qed.

(** X13. Comparing a document with itself gives an Update operation that
    renders to nothing, so [commit] sends no body for it (the comparison
    has to find each value of the document equal to itself). *)
Theorem unchanged_document_is_a_no_op base eid doc replace :
  map_Forall (fun _ v => ne v v = false) doc ->
  _prepare_update_data ne doc doc replace = ∅
  /\ to_server_operation
       (UpdateOperation base eid (_prepare_update_data ne doc doc replace))
     = Ok None.
Proof.
  intros Hrefl.
  assert (_prepare_update_data ne doc doc replace = ∅) as ->.
  { apply prepare_update_data_nothing. split.
    - intros key v Hv. exists v. split; [done|]. by apply (Hrefl key v).
    - by intros _ key. }
  done.
Qed.

(** X14. With [replace] set, a key that [old_doc] has and [new_doc] lacks
    reaches the wire as an explicit [None]: the Update operation built
    from the changes has a rendering, whose data maps the key to [None]. *)
Theorem dropped_key_is_sent_as_None base eid old_doc new_doc key old :
  old_doc !! key = Some old ->
  new_doc !! key = None ->
  exists body data,
    to_server_operation
      (UpdateOperation base eid (_prepare_update_data ne old_doc new_doc true))
    = Ok (Some body)
    /\ so_data body = Some data
    /\ data !! key = Some VNone.
Proof.
  intros Hold Hnew.
  assert (_prepare_update_data ne old_doc new_doc true !! key
          = Some REMOVED_VALUE) as Hkey.
  { by rewrite prepare_update_data_at, Hold, Hnew. }
  eexists. eexists. cbn [to_server_operation].
  rewrite (dict_is_empty_lookup _ _ _ Hkey).
  split; [reflexivity|]. split; [reflexivity|].
  by rewrite removed_to_None_lookup, Hkey.
Qed.
End PrepareUpdateDataProperties.

(** ** Properties of the entity skeletons *)

Section SkeletonProperties.
Variable create_entity_id : nat -> string.

Lemma acceptable_id_dec v : {acceptable_id v} + {~ acceptable_id v}.
Proof.
  destruct v as [| | |s| | |];
    try (right; intros [?|(? & ? & ?)]; discriminate);
    try (left; by left).
  destruct (Uuid.UUID s) as [e|[]] eqn:E.
  - right. intros [?|(s' & [= <-] & ?)]; congruence.
  - left. right. by exists s.
Defined.

Lemma convert_id_acceptable calls v :
  acceptable_id v ->
  convert_id create_entity_id calls v
  = Ok (checked_id (create_entity_id calls) v, calls_after calls v).
Proof.
  intros [->|(s & -> & Hs)]; [done|].
  unfold convert_id. simpl. by rewrite Hs.
Qed.

Lemma convert_id_rejected calls v :
  ~ acceptable_id v -> exists e, convert_id create_entity_id calls v = Raise e.
Proof.
  intros Hv. destruct v as [| | |s| | |]; try (by eexists).
  - destruct Hv. by left.
  - unfold convert_id. simpl. destruct (Uuid.UUID s) as [e|[]] eqn:E.
    + by eexists.
    + destruct Hv. right. by exists s.
Qed.

Lemma converts_two_ids_intro calls entity_id parent parent_key
    (make : value -> value -> gmap string value) :
  (forall a b, make a b !! "id" = Some a) ->
  (forall a b, make a b !! parent_key = Some b) ->
  converts_two_ids create_entity_id calls entity_id parent parent_key
    (and_then (convert_id create_entity_id calls entity_id) (fun new =>
     and_then (convert_id create_entity_id (snd new) parent) (fun ref =>
     Ok (make (fst new) (fst ref), snd ref)))).
Proof.
  intros Hid Hparent.
  destruct (acceptable_id_dec entity_id) as [He|He].
  - rewrite (convert_id_acceptable _ _ He). cbn [and_then fst snd].
    destruct (acceptable_id_dec parent) as [Hp|Hp].
    + rewrite (convert_id_acceptable _ _ Hp). cbn [and_then fst snd].
      unfold converts_two_ids. by rewrite Hid, Hparent.
    + destruct (convert_id_rejected (calls_after calls entity_id) _ Hp)
        as [e ->].
      cbn. tauto.
  - destruct (convert_id_rejected calls _ He) as [e ->]. cbn. tauto.
Qed.

(** X15. The builders of subset, representation and workfile skeletons
    return exactly when the entity id and the parent reference are each
    [None] or a string [uuid.UUID] reads; an id given is kept as it is, and
    a [None] is replaced by a generated id, for the parent reference
    ([folderId], [versionId], [parent]) as for the entity itself. *)
Theorem skeletons_convert_both_ids calls entity_id parent
    name family attribs data filename task_name files :
  converts_two_ids create_entity_id calls entity_id parent "folderId"
    (new_subset_entity create_entity_id calls name family parent attribs data
       entity_id)
  /\ converts_two_ids create_entity_id calls entity_id parent "versionId"
       (new_representation_entity create_entity_id calls name parent attribs
          data entity_id)
  /\ converts_two_ids create_entity_id calls entity_id parent "parent"
       (new_workfile_info_doc create_entity_id calls filename parent
          task_name files data entity_id).
Proof.
  split; [|split].
  - apply (converts_two_ids_intro _ _ _ "folderId" (fun a b =>
      {[ "id" := a; "name" := name; "family" := family;
         "attrib" := dict_if_None attribs; "data" := dict_if_None data;
         "folderId" := b ]})); intros a b; by simplify_map_eq.
  - apply (converts_two_ids_intro _ _ _ "versionId" (fun a b =>
      {[ "id" := a; "versionId" := b; "name" := name;
         "data" := dict_if_None data;
         "attrib" := dict_if_None attribs ]})); intros a b; by simplify_map_eq.
  - apply (converts_two_ids_intro _ _ _ "parent" (fun a b =>
      {[ "id" := a; "parent" := b; "task_name" := task_name;
         "filename" := filename; "data" := dict_if_falsy data;
         "files" := files ]})); intros a b; by simplify_map_eq.
Qed.

Lemma new_folder_entity_converts calls name folder_type parent_id attribs data
    thumbnail_id entity_id :
  match new_folder_entity create_entity_id calls name folder_type parent_id
          attribs data thumbnail_id entity_id with
  | inr (doc, calls') =>
      acceptable_id parent_id /\ acceptable_id entity_id
      /\ doc !! "id" = Some (checked_id (create_entity_id calls) entity_id)
      /\ doc !! "parentId" = Some parent_id
      /\ calls' = calls_after calls entity_id
  | inl _ => ~ (acceptable_id parent_id /\ acceptable_id entity_id)
  end.
Proof.
  unfold new_folder_entity. cbn zeta.
  match goal with
  | |- match and_then ?m _ with _ => _ end =>
      assert (m = if acceptable_id_dec parent_id then Ok (parent_id, calls)
                  else convert_id create_entity_id calls parent_id) as ->
  end.
  { destruct (acceptable_id_dec parent_id) as [[->|(s & -> & Hs)]|Hn];
      [done| |].
    - unfold convert_id. simpl. by rewrite Hs.
    - destruct parent_id; try done. destruct Hn. by left. }
  destruct (acceptable_id_dec parent_id) as [Hp|Hp].
  - cbn [and_then fst snd].
    destruct (acceptable_id_dec entity_id) as [He|He].
    + rewrite (convert_id_acceptable _ _ He). cbn [and_then fst snd].
      by simplify_map_eq.
    + destruct (convert_id_rejected calls _ He) as [e ->]. cbn. tauto.
  - destruct (convert_id_rejected calls _ Hp) as [e ->]. cbn. tauto.
Qed.

(** X16. [new_folder_entity] returns exactly when [parent_id] and
    [entity_id] are each [None] or a string [uuid.UUID] reads.  The
    entity id is kept, or generated when [None]; the parent id is kept as
    it is, so a missing parent stays [None] and costs no generated id. *)
Theorem new_folder_entity_ids calls name folder_type parent_id attribs data
    thumbnail_id entity_id :
  match new_folder_entity create_entity_id calls name folder_type parent_id
          attribs data thumbnail_id entity_id with
  | inr (doc, calls') =>
      acceptable_id parent_id /\ acceptable_id entity_id
      /\ doc !! "id" = Some (checked_id (create_entity_id calls) entity_id)
      /\ doc !! "parentId" = Some parent_id
      /\ calls' = calls_after calls entity_id
  | inl _ => ~ (acceptable_id parent_id /\ acceptable_id entity_id)
  end.
Proof. exact (new_folder_entity_converts calls name folder_type parent_id attribs data thumbnail_id entity_id). Qed.

(** X17. A hero version skeleton never has a positive version number: it
    holds minus the absolute value of the number given, so a number and
    its opposite give the same skeleton; and, unlike the version
    skeleton, it stores [subset_id] without any check. *)
Theorem new_hero_version_entity_version calls version subset_id task_id
    thumbnail_id author attribs data entity_id :
  acceptable_id entity_id ->
  (exists doc number,
     new_hero_version_entity create_entity_id calls version subset_id task_id
       thumbnail_id author attribs data entity_id
     = Ok (doc, calls_after calls entity_id)
     /\ doc !! "version" = Some (VInt number)
     /\ (number <= 0)%Z /\ Z.abs number = Z.abs version
     /\ doc !! "subsetId" = Some subset_id)
  /\ new_hero_version_entity create_entity_id calls (- version) subset_id
       task_id thumbnail_id author attribs data entity_id
     = new_hero_version_entity create_entity_id calls version subset_id
         task_id thumbnail_id author attribs data entity_id.
Proof.
  intros He. unfold new_hero_version_entity.
  rewrite (convert_id_acceptable _ _ He). cbn [and_then fst snd].
  split.
  - eexists. exists (- Z.abs version)%Z. split; [reflexivity|].
    split; [by simplify_map_eq|]. split; [lia|]. split; [lia|].
    by simplify_map_eq.
  - by rewrite Z.abs_opp.
Qed.

(** X18. A version skeleton has the keys [id], [version], [subsetId],
    [attrib] and [data] and no other: the [task_id], [thumbnail_id] and
    [author] given to [new_version_entity] are not stored. *)
Theorem new_version_entity_keys calls version subset_id task_id thumbnail_id
    author attribs data entity_id doc calls' :
  new_version_entity create_entity_id calls version subset_id task_id
    thumbnail_id author attribs data entity_id = Ok (doc, calls') ->
  dom doc = ({[ "id"; "version"; "subsetId"; "attrib"; "data" ]} : gset string)
  /\ forall task_id' thumbnail_id' author',
       new_version_entity create_entity_id calls version subset_id task_id'
         thumbnail_id' author' attribs data entity_id = Ok (doc, calls').
Proof.
  intros H. split; [|by intros].
  unfold new_version_entity, and_then in H.
  destruct (convert_id _ calls entity_id) as [|new]; [done|].
  destruct (convert_id _ (snd new) subset_id) as [|subset]; [done|].
  injection H as <- <-. rewrite !dom_insert_L, dom_singleton_L. set_solver.
Qed.

(** X19. A folder skeleton handed to [CreateOperation] keeps its id: the
    constructor generates none, the payload is the skeleton, and the wire
    rendering carries the skeleton's id as [entityId]. *)
Theorem folder_skeleton_to_operation calls name folder_type parent_id attribs
    data thumbnail_id given_id doc calls' rt project :
  new_folder_entity create_entity_id calls name folder_type parent_id attribs
    data thumbnail_id given_id = Ok (doc, calls') ->
  exists op body,
    CreateOperation__init__ rt project "folder" (Some doc) = Ok op
    /\ entity_id op = Ok (checked_id (create_entity_id calls) given_id)
    /\ to_server_operation op = Ok (Some body)
    /\ so_entityId body = checked_id (create_entity_id calls) given_id
    /\ so_data body = Some doc.
Proof.
  intros H.
  pose proof (new_folder_entity_converts calls name folder_type parent_id attribs
                data thumbnail_id given_id) as Hids.
  rewrite H in Hids. destruct Hids as (_ & _ & Hid & _).
  exists (CreateOperation (AbstractOperation__init__ rt project "folder") doc).
  eexists. split.
  { unfold CreateOperation__init__.
    change (default ∅ (Some doc)) with doc. by rewrite Hid. }
  cbn [entity_id to_server_operation]. rewrite Hid. done.
Qed.
End SkeletonProperties.

(** ** Further properties of the operation classes *)

Lemma removed_to_None_rendered (update_data : gmap string value) :
  rendered_changes update_data (removed_to_None <$> update_data).
Proof.
  split; [by rewrite dom_fmap_L|]. split.
  - intros key. rewrite removed_to_None_lookup.
    destruct (update_data !! key) as [[]|]; done.
  - intros key v Hv Hmark. rewrite removed_to_None_lookup, Hv.
    by destruct v.
Qed.

(** X20. The removal marker never leaves an Update operation: the debug
    rendering's changes and, when there is one, the wire rendering's data
    have the keys of the change-set, map none of them to the marker, and
    hold every other value unchanged. *)
Theorem update_renderings_hide_marker base eid update_data :
  (exists changes,
     od_changes (to_data (UpdateOperation base eid update_data)) = Some changes
     /\ rendered_changes update_data changes)
  /\ (forall body,
        to_server_operation (UpdateOperation base eid update_data)
          = Ok (Some body) ->
        exists data, so_data body = Some data
                     /\ rendered_changes update_data data).
Proof.
  split.
  - eexists. split; [reflexivity|]. apply removed_to_None_rendered.
  - intros body. cbn [to_server_operation].
    destruct (dict_is_empty update_data); [done|]. intros [= <-].
    eexists. split; [reflexivity|]. apply removed_to_None_rendered.
Qed.

Lemma set_values_app first second op :
  set_values (first ++ second) op = set_values second (set_values first op).
Proof. apply foldl_app. Qed.

(** X21. The entity id of a Create operation is not frozen: assigning the
    payload's ["id"] through [set_value] re-targets the operation, and
    every rendering then carries the assigned id (as long as no later
    call assigns it again). *)
Theorem set_value_id_retargets base data before v after :
  Forall (fun kv => fst kv <> "id") after ->
  create_ids_are
    (set_values (before ++ ("id", v) :: after) (CreateOperation base data)) v.
Proof.
  intros Hafter. rewrite set_values_app.
  destruct (set_values_create before base data) as (d1 & -> & _ & _).
  change (set_values (("id", v) :: after) (CreateOperation base d1))
    with (set_values after (CreateOperation base (<["id" := v]> d1))).
  destruct (set_values_create after base (<["id" := v]> d1))
    as (d2 & -> & Hkeep & _).
  apply create_ids_are_intro. rewrite (Hkeep Hafter). apply lookup_insert_eq.
Qed.

(** X22. The two renderings of an operation tell the same story: a wire
    rendering has the operation id, the operation kind and the entity type
    of the debug rendering; for an Update or a Delete its [entityId] is
    the debug rendering's [entity_id], and for a Create, whose debug
    rendering has no [entity_id], it is the id in the debug rendering's
    data. *)
Theorem renderings_agree op body :
  to_server_operation op = Ok (Some body) ->
  so_id body = od_id (to_data op)
  /\ so_type body = od_operation (to_data op)
  /\ so_entityType body = od_entity_type (to_data op)
  /\ match od_entity_id (to_data op) with
     | Some eid => so_entityId body = eid
     | None => exists data, od_data (to_data op) = Some data
                            /\ data !! "id" = Some (so_entityId body)
     end.
Proof.
  destruct op as [b data|b eid upd|b eid]; cbn [to_server_operation entity_id].
  - destruct (data !! "id") as [v|] eqn:E; [|done]. intros [= <-].
    repeat split. by exists data.
  - destruct (dict_is_empty upd); [done|]. by intros [= <-].
  - by intros [= <-].
Qed.

(** ** Properties of the project cache *)

Section ProjectCacheProperties.
Import ProjectCache.
Context {Conn : Type}.
Variable con_get_project : Conn -> string -> Conn * Result value.

Lemma get_project_keeps_entries name other project (s : Session) :
  _project_cache s !! other = Some project ->
  _project_cache (session (get_project con_get_project name s)) !! other
  = Some project.
Proof.
  intros H. unfold get_project.
  destruct (_project_cache s !! name) as [p|] eqn:E; [done|].
  destruct (snd (con_get_project (con s) name)); cbn; [done|].
  rewrite lookup_insert_ne; [done|]. congruence.
Qed.

Lemma get_projects_keeps_entries names : forall other project (s : Session),
  _project_cache s !! other = Some project ->
  _project_cache (fst (get_projects con_get_project names s)) !! other
  = Some project.
Proof.
  induction names as [|name names IH]; intros other project s H; [done|].
  cbn [get_projects fst]. apply IH. by apply get_project_keeps_entries.
Qed.

(** X23. The project cache is never refreshed: once [get_project] has
    returned for a name, every later [get_project] for that name, after
    any other lookups, returns the same value without a call to the
    transport; this holds as well when the value was [None] because the
    project did not exist yet. *)
Theorem get_project_is_cached name project names (s : Session) :
  returned (get_project con_get_project name s) = Ok project ->
  let later :=
    fst (get_projects con_get_project names
           (session (get_project con_get_project name s))) in
  get_project con_get_project name later = mkCall (Ok project) later [].
Proof.
  intros Hret. cbn zeta.
  assert (_project_cache (session (get_project con_get_project name s)) !! name
          = Some project) as Hcached.
  { revert Hret. unfold get_project.
    destruct (_project_cache s !! name) as [p|] eqn:E.
    - cbn. by intros [= <-].
    - destruct (snd (con_get_project (con s) name)); cbn; [done|].
      intros [= <-]. apply lookup_insert_eq. }
  unfold get_project at 1.
  by rewrite (get_projects_keeps_entries _ _ _ _ Hcached).
Qed.

Lemma get_project_hit name project (s : Session) :
  _project_cache s !! name = Some project ->
  get_project con_get_project name s = mkCall (Ok project) s [].
Proof. intros H. unfold get_project. by rewrite H. Qed.

Lemma get_project_miss name project (s : Session) :
  _project_cache s !! name = None ->
  snd (con_get_project (con s) name) = Ok project ->
  get_project con_get_project name s
  = mkCall (Ok project)
      (mkSession (fst (con_get_project (con s) name))
         (<[name := project]> (_project_cache s))) [name].
Proof. intros H Hp. unfold get_project. by rewrite H, Hp. Qed.

(** X24. With a transport whose lookups do not raise, a series of
    [get_project] calls asks the transport at most once per name: the
    names asked are, without repetition, the names of the series that
    were not in the cache at the start. *)
Theorem get_projects_fetch_once names : forall (s : Session),
  (forall c name, exists project, snd (con_get_project c name) = Ok project) ->
  NoDup (snd (get_projects con_get_project names s))
  /\ forall name,
       name ∈ snd (get_projects con_get_project names s)
       <-> name ∈ names /\ _project_cache s !! name = None.
Proof.
  induction names as [|n names IH]; intros s Hok.
  - split; [constructor|]. intros name. cbn. split.
    + by intros ?%elem_of_nil.
    + by intros [?%elem_of_nil _].
  - cbn [get_projects snd].
    destruct (_project_cache s !! n) as [p|] eqn:E.
    + rewrite (get_project_hit _ _ _ E).
      cbn [fetched session app]. destruct (IH s Hok) as [Hnd Hin].
      split; [done|]. intros name. rewrite Hin, elem_of_cons.
      split; [tauto|]. intros [[->|?] ?]; [congruence|done].
    + destruct (Hok (con s) n) as [project Hp].
      rewrite (get_project_miss _ _ _ E Hp).
      cbn [fetched session app].
      set (s' := mkSession _ _).
      destruct (IH s' Hok) as [Hnd Hin].
      assert (_project_cache s' !! n = Some project) as Hn
        by apply lookup_insert_eq.
      split.
      * apply NoDup_cons. split; [|done]. rewrite Hin. intros [_ ?].
        congruence.
      * intros name. rewrite !elem_of_cons, Hin. subst s'. cbn.
        destruct (decide (name = n)) as [->|Hne].
        -- split; [by intros; split; [left|]|by left].
        -- rewrite lookup_insert_ne by done. split.
           ++ intros [?|[? ?]]; [done|]. by split; [right|].
           ++ intros [[?|?] ?]; [done|]. by right.
Qed.
End ProjectCacheProperties.

(** ** Properties of [create_project] and [delete_project] *)

Section ProjectsProperties.
Import Projects.
Context {Conn : Type}.
Variable con_get_project :
  Conn -> string -> option (list string) -> Conn * Result value.
Variable con_get_project_anatomy_preset : Conn -> value -> Conn * Result value.
Variable con_post_projects :
  Conn -> string -> value -> value -> value -> Conn * Result Response.
Variable con_delete : Conn -> string -> Conn * Result Response.
Variable message : Failure -> string.
Variable str_status : Z -> string.
Variable str_value : value -> string.

(** X25. [create_project] looks the project up first and only posts when
    the lookup returned nothing and the name matches the pattern: any
    request to create a project comes after a lookup that found none, for
    a name the pattern accepts, and an existing project is reported even
    when the name is not valid. *)
Theorem create_project_checks_before_posting
    project_name project_code library_project preset_name con :
  let found := con_get_project con project_name (Some ["name"]) in
  let r := create_project con_get_project con_get_project_anatomy_preset
             con_post_projects message str_status str_value
             project_name project_code library_project preset_name con in
  head (calls r) = Some (GetProject project_name (Some ["name"]))
  /\ (forall name code anatomy library,
        PostProjects name code anatomy library ∈ calls r ->
        name = project_name
        /\ PROJECT_NAME_REGEX_match project_name = true
        /\ exists project, snd found = Ok project /\ truthy project = false)
  /\ (forall project, snd found = Ok project -> truthy project = true ->
        outcome r = Raise (ValueError (message (AlreadyExists project_name)))
        /\ calls r = [GetProject project_name (Some ["name"])]).
Proof.
  cbn zeta. unfold create_project.
  destruct (snd (con_get_project con project_name (Some ["name"])))
    as [e|project] eqn:Hfound.
  { cbn. split; [done|]. split; [|done]. intros ???? Hin. find_call Hin. }
  destruct (truthy project) eqn:Htruthy.
  { cbn. split; [done|]. split; [intros ???? Hin; find_call Hin|].
    by intros ? [= <-] _. }
  destruct (PROJECT_NAME_REGEX_match project_name) eqn:Hname; cbn [negb].
  2:{ cbn. split; [done|]. split; [intros ???? Hin; find_call Hin|].
      intros ? [= <-] ?. congruence. }
  split.
  { destruct (snd (con_get_project_anatomy_preset _ _)); [done|].
    destruct (snd (con_post_projects _ _ _ _ _)) as [|result]; [done|].
    by destruct (negb _). }
  split.
  - intros name code anatomy library Hin.
    split; [|split; [done|by exists project]].
    destruct (snd (con_get_project_anatomy_preset _ _)) as [|preset];
      [find_call Hin|].
    destruct (snd (con_post_projects _ _ _ _ _)) as [|result];
      [find_call Hin|].
    destruct (negb _); find_call Hin.
  - intros ? [= <-] ?. congruence.
Qed.

(** X26. [delete_project] only asks the server to delete a project its
    lookup found, at the path of that project; and when the server
    refuses (a status other than 204) without a ["detail"] in its answer,
    the call ends with the [KeyError] of that missing key, not with the
    [ValueError] it was building. *)
Theorem delete_project_checks_before_deleting project_name con :
  let found := con_get_project con project_name (Some ["name"]) in
  let r := delete_project con_get_project con_delete message str_value
             project_name con in
  (forall path, Delete path ∈ calls r ->
     path = ("projects/" +:+ project_name)%stdpp
     /\ exists project, snd found = Ok project /\ truthy project = true)
  /\ (forall project result answer,
        snd found = Ok project -> truthy project = true ->
        snd (con_delete (fst found) ("projects/" +:+ project_name)%stdpp)
          = Ok result ->
        status result <> 204%Z ->
        data result = Some answer -> answer !! "detail" = None ->
        outcome r = Raise (KeyError "detail")).
Proof.
  cbn zeta. unfold delete_project.
  destruct (snd (con_get_project con project_name (Some ["name"])))
    as [e|project] eqn:Hfound.
  { cbn. split; [|done]. intros ? Hin. find_call Hin. }
  destruct (truthy project) eqn:Htruthy; cbn [negb].
  2:{ cbn. split; [intros ? Hin; find_call Hin|]. intros ??? [= <-] ?.
      congruence. }
  split.
  - intros path Hin. split; [|by exists project].
    destruct (snd (con_delete _ _)) as [|result]; [find_call Hin|].
    destruct (negb _); [|find_call Hin].
    destruct (data result) as [d|]; [|find_call Hin].
    destruct (d !! "detail"); find_call Hin.
  - intros ? result answer [= <-] _ -> Hstatus -> ->.
    apply Z.eqb_neq in Hstatus. by rewrite Hstatus.
Qed.
End ProjectsProperties.

(** ** The further properties at work *)

Lemma constructors_defer_under_nested_id_witness :
  deferred_under "folder-operation" (Sample.session_of [Sample.folder])
    (create_entity (Sample.fresh 2 "subset") "alpha" "subset" None
       (Some "folder-operation") (Sample.session_of [Sample.folder]))
  /\ deferred_under "folder-operation" (Sample.session_of [Sample.folder])
       (update_entity (Sample.fresh 3 "rename") "alpha" "folder"
          (VStr "folder-entity") Sample.changes (Some "folder-operation")
          (Sample.session_of [Sample.folder]))
  /\ deferred_under "folder-operation" (Sample.session_of [Sample.folder])
       (delete_entity (Sample.fresh 5 "drop") "alpha" "folder"
          (VStr "folder-entity") (Some "folder-operation")
          (Sample.session_of [Sample.folder])).
Proof.
  destruct (constructors_defer_under_nested_id (Sample.fresh 2 "subset")
              "alpha" "subset" None (VStr "folder-entity") Sample.changes
              "folder-operation" (Sample.session_of [Sample.folder]))
    as (Hcreate & _ & _); [discriminate|].
  destruct (constructors_defer_under_nested_id (Sample.fresh 3 "rename")
              "alpha" "folder" None (VStr "folder-entity") Sample.changes
              "folder-operation" (Sample.session_of [Sample.folder]))
    as (_ & Hupdate & _); [discriminate|].
  destruct (constructors_defer_under_nested_id (Sample.fresh 5 "drop")
              "alpha" "folder" None (VStr "folder-entity") Sample.changes
              "folder-operation" (Sample.session_of [Sample.folder]))
    as (_ & _ & Hdelete); [discriminate|].
  exact (conj Hcreate (conj Hupdate Hdelete)).
Defined.

Lemma constructors_add_last_witness :
  added_last (Sample.session_of [Sample.folder])
    (create_entity (Sample.fresh 2 "subset") "alpha" "subset" None (Some "")
       (Sample.session_of [Sample.folder]))
  /\ added_last (Sample.session_of [Sample.folder])
       (update_entity (Sample.fresh 2 "subset") "alpha" "subset"
          (VStr "folder-entity") Sample.changes (Some "")
          (Sample.session_of [Sample.folder]))
  /\ added_last (Sample.session_of [Sample.folder])
       (delete_entity (Sample.fresh 2 "subset") "alpha" "subset"
          (VStr "folder-entity") (Some "")
          (Sample.session_of [Sample.folder])).
Proof.
  apply (constructors_add_last (Sample.fresh 2 "subset") "alpha" "subset" None
           (VStr "folder-entity") Sample.changes (Some "")
           (Sample.session_of [Sample.folder])).
  - right. reflexivity.
  - reflexivity.
Defined.

Lemma flush_is_one_level_deep_witness :
  exists op,
    returned (create_entity (Sample.fresh 1 "folder") "alpha" "folder" None
                None Cases.family) = Ok op
    /\ _operations (session (create_entity (Sample.fresh 1 "folder") "alpha"
                               "folder" None None Cases.family))
       = [] ++ op :: [Sample.subset]
    /\ _nested_operations
         (session (create_entity (Sample.fresh 1 "folder") "alpha" "folder"
                     None None Cases.family)) !! id op = None
    /\ _nested_operations
         (session (create_entity (Sample.fresh 1 "folder") "alpha" "folder"
                     None None Cases.family)) !! id Sample.subset
       = Some [Sample.subset2].
Proof.
  apply (flush_is_one_level_deep (Sample.fresh 1 "folder") "alpha" "folder"
           None Cases.family [Sample.subset] Sample.subset [Sample.subset2]).
  - reflexivity.
  - left.
  - vm_compute. discriminate.
  - reflexivity.
Defined.

Lemma commit_does_not_keep_operations_witness :
  _operations (session (commit Sample.rejecting
                          (Sample.session_of [Sample.folder; Sample.drop])))
    = []
  /\ commit Sample.rejecting
       (session (commit Sample.rejecting
                   (Sample.session_of [Sample.folder; Sample.drop])))
     = mkRun (Ok tt)
         (session (commit Sample.rejecting
                     (Sample.session_of [Sample.folder; Sample.drop]))) [].
Proof.
  apply (commit_does_not_keep_operations Sample.rejecting
           (Sample.session_of [Sample.folder; Sample.drop])).
  intros c rq. reflexivity.
Defined.

Lemma commit_propagates_transport_fault_witness :
  returned (commit Cases.broken
              (Sample.session_of [Sample.folder; Sample.drop]))
    = Raise (TransportFault "connection reset")
  /\ last (sent (commit Cases.broken
                   (Sample.session_of [Sample.folder; Sample.drop])))
     = Some (Cases.folder_request, Cases.broken 0 Cases.folder_request).
Proof.
  apply (commit_propagates_transport_fault Cases.broken
           (Sample.session_of [Sample.folder; Sample.drop])
           (Cases.folder_request, Cases.broken 0 Cases.folder_request)
           (TransportFault "connection reset")).
  - vm_compute. left.
  - reflexivity.
Defined.

Lemma commit_unknown_operation_id_witness :
  returned (commit (Sample.answer [] Cases.stranger_failed)
              (Sample.session_of [Sample.folder; Sample.noop]))
  = Raise (KeyError "noop-operation").
Proof.
  apply (commit_unknown_operation_id (Sample.answer [] Cases.stranger_failed)
           (Sample.session_of [Sample.folder; Sample.noop])
           [] Cases.stranger_failed []
           [ {| or_id := "folder-operation"; or_success := true;
                or_error := "" |} ]
           {| or_id := "noop-operation"; or_success := false;
              or_error := "nothing to update" |} []).
  - each_renders.
  - each_answered.
  - vm_compute. reflexivity.
  - apply List.Forall_nil.
  - reflexivity.
  - reflexivity.
  - apply List.Forall_cons; [reflexivity|apply List.Forall_nil].
  - reflexivity.
  - intros op Hop Hid.
    apply elem_of_cons in Hop as [->|Hop]; [vm_compute in Hid; discriminate|].
    apply elem_of_cons in Hop as [->|Hop]; [reflexivity|].
    by apply elem_of_nil in Hop.
Defined.

Lemma commit_trusts_success_flag_witness :
  returned (commit (Sample.answer [] Cases.contradictory)
              (Sample.session_of [Sample.folder; Sample.drop]))
  = Ok tt.
Proof.
  apply (commit_trusts_success_flag (Sample.answer [] Cases.contradictory)
           (Sample.session_of [Sample.folder; Sample.drop])).
  - each_renders.
  - each_answered.
  - vm_compute. repeat (apply List.Forall_cons; [reflexivity|]).
    apply List.Forall_nil.
Defined.

Lemma unchanged_document_is_a_no_op_witness :
  _prepare_update_data value_ne Cases.old_doc Cases.old_doc true = ∅
  /\ to_server_operation
       (UpdateOperation
          (AbstractOperation__init__ (Sample.fresh 3 "rename") "alpha" "folder")
          (VStr "folder-entity")
          (_prepare_update_data value_ne Cases.old_doc Cases.old_doc true))
     = Ok None.
Proof.
  apply (unchanged_document_is_a_no_op value_ne
           (AbstractOperation__init__ (Sample.fresh 3 "rename") "alpha" "folder")
           (VStr "folder-entity") Cases.old_doc true).
  by_computation.
Defined.

Lemma dropped_key_is_sent_as_None_witness :
  exists body data,
    to_server_operation
      (UpdateOperation
         (AbstractOperation__init__ (Sample.fresh 3 "rename") "alpha" "folder")
         (VStr "folder-entity")
         (_prepare_update_data value_ne Cases.old_doc Cases.new_doc true))
    = Ok (Some body)
    /\ so_data body = Some data
    /\ data !! "label" = Some VNone.
Proof.
  apply (dropped_key_is_sent_as_None value_ne
           (AbstractOperation__init__ (Sample.fresh 3 "rename") "alpha" "folder")
           (VStr "folder-entity") Cases.old_doc Cases.new_doc "label"
           (VStr "draft")).
  - reflexivity.
  - reflexivity.
Defined.

Lemma new_hero_version_entity_version_witness :
  (exists doc number,
     new_hero_version_entity Cases.ids 0 7 (VStr "not-a-uuid") VNone VNone
       VNone VNone VNone VNone
     = Ok (doc, calls_after 0 VNone)
     /\ doc !! "version" = Some (VInt number)
     /\ (number <= 0)%Z /\ Z.abs number = Z.abs 7
     /\ doc !! "subsetId" = Some (VStr "not-a-uuid"))
  /\ new_hero_version_entity Cases.ids 0 (- 7) (VStr "not-a-uuid") VNone VNone
       VNone VNone VNone VNone
     = new_hero_version_entity Cases.ids 0 7 (VStr "not-a-uuid") VNone VNone
         VNone VNone VNone VNone.
Proof.
  apply (new_hero_version_entity_version Cases.ids 0 7 (VStr "not-a-uuid")
           VNone VNone VNone VNone VNone VNone).
  left. reflexivity.
Defined.

Lemma new_version_entity_keys_witness :
  dom Cases.version_doc
    = ({[ "id"; "version"; "subsetId"; "attrib"; "data" ]} : gset string)
  /\ forall task_id' thumbnail_id' author',
       new_version_entity Cases.ids 0 3 VNone task_id' thumbnail_id' author'
         VNone VNone VNone
       = Ok (Cases.version_doc, 2).
Proof.
  apply (new_version_entity_keys Cases.ids 0 3 VNone (VStr "task")
           (VStr "thumbnail") (VStr "author") VNone VNone VNone
           Cases.version_doc 2).
  reflexivity.
Defined.

Lemma folder_skeleton_to_operation_witness :
  exists op body,
    CreateOperation__init__ (Sample.fresh 1 "folder") "alpha" "folder"
      (Some Cases.folder_doc) = Ok op
    /\ entity_id op = Ok (checked_id (Cases.ids 0) VNone)
    /\ to_server_operation op = Ok (Some body)
    /\ so_entityId body = checked_id (Cases.ids 0) VNone
    /\ so_data body = Some Cases.folder_doc.
Proof.
  apply (folder_skeleton_to_operation Cases.ids 0 (VStr "shots")
           (VStr "sequence") VNone VNone VNone VNone VNone Cases.folder_doc 1
           (Sample.fresh 1 "folder") "alpha").
  reflexivity.
Defined.

Lemma set_value_id_retargets_witness :
  create_ids_are
    (set_values ([("name", VStr "shots")] ++ ("id", Cases.uuid)
                   :: [("label", VNone)])
       (CreateOperation
          (AbstractOperation__init__ (Sample.fresh 1 "folder") "alpha" "folder")
          {[ "id" := VStr "folder-entity" ]}))
    Cases.uuid.
Proof.
  apply (set_value_id_retargets
           (AbstractOperation__init__ (Sample.fresh 1 "folder") "alpha" "folder")
           {[ "id" := VStr "folder-entity" ]}
           [("name", VStr "shots")] Cases.uuid [("label", VNone)]).
  apply List.Forall_cons; [discriminate|apply List.Forall_nil].
Defined.

Lemma renderings_agree_witness :
  so_id Cases.folder_body = od_id (to_data Sample.folder)
  /\ so_type Cases.folder_body = od_operation (to_data Sample.folder)
  /\ so_entityType Cases.folder_body = od_entity_type (to_data Sample.folder)
  /\ match od_entity_id (to_data Sample.folder) with
     | Some eid => so_entityId Cases.folder_body = eid
     | None => exists data, od_data (to_data Sample.folder) = Some data
                            /\ data !! "id" = Some (so_entityId Cases.folder_body)
     end.
Proof.
  apply (renderings_agree Sample.folder Cases.folder_body). reflexivity.
Defined.

Lemma get_project_is_cached_witness :
  ProjectCache.get_project Cases.lookup "beta"
    (fst (ProjectCache.get_projects Cases.lookup ["alpha"; "beta"]
            (ProjectCache.session
               (ProjectCache.get_project Cases.lookup "beta"
                  (ProjectCache.mkSession 0 ∅)))))
  = ProjectCache.mkCall (Ok VNone)
      (fst (ProjectCache.get_projects Cases.lookup ["alpha"; "beta"]
              (ProjectCache.session
                 (ProjectCache.get_project Cases.lookup "beta"
                    (ProjectCache.mkSession 0 ∅))))) [].
Proof.
  apply (get_project_is_cached Cases.lookup "beta" VNone ["alpha"; "beta"]
           (ProjectCache.mkSession 0 ∅)).
  reflexivity.
Defined.

Lemma get_projects_fetch_once_witness :
  NoDup (snd (ProjectCache.get_projects Cases.lookup
                ["alpha"; "beta"; "alpha"] (ProjectCache.mkSession 0 ∅)))
  /\ forall name,
       name ∈ snd (ProjectCache.get_projects Cases.lookup
                     ["alpha"; "beta"; "alpha"] (ProjectCache.mkSession 0 ∅))
       <-> name ∈ ["alpha"; "beta"; "alpha"]
           /\ ProjectCache._project_cache (ProjectCache.mkSession 0 ∅) !! name
              = None.
Proof.
  apply (get_projects_fetch_once Cases.lookup ["alpha"; "beta"; "alpha"]
           (ProjectCache.mkSession 0 ∅)).
  intros c name. eexists. reflexivity.
Defined.

Example sample_prepare_update_data :
  _prepare_update_data value_ne Cases.old_doc Cases.new_doc true
    = {[ "name" := VStr "renamed"; "label" := REMOVED_VALUE ]}
  /\ _prepare_update_data value_ne Cases.old_doc Cases.new_doc false
     = {[ "name" := VStr "renamed" ]}.
Proof. split; vm_compute; reflexivity. Qed.

Example sample_project_names :
  Projects.PROJECT_NAME_REGEX_match "Project_01" = true
  /\ Projects.PROJECT_NAME_REGEX_match "" = false
  /\ Projects.PROJECT_NAME_REGEX_match "my project" = false
  /\ Projects.PROJECT_NAME_REGEX_match "my-project" = false.
Proof. repeat split. Qed.

Example sample_projects_in_order :
  projects_in_order [Sample.folder; Sample.drop; Sample.noop; Sample.late]
  = ["alpha"; "beta"]
  /\ of_project "alpha" [Sample.folder; Sample.drop; Sample.noop; Sample.late]
     = [Sample.folder; Sample.noop].
Proof. split; vm_compute; reflexivity. Qed.

Example sample_subset_skeleton :
  new_subset_entity Cases.ids 0 (VStr "main") (VStr "render") VNone VNone
    VNone VNone
  = Ok ({[ "id" := VStr "0-generated"; "name" := VStr "main";
           "family" := VStr "render"; "attrib" := VDict [];
           "data" := VDict []; "folderId" := VStr "1-generated" ]}, 2)
  /\ new_folder_entity Cases.ids 0 (VStr "shots") (VStr "sequence")
       (VStr "not-a-uuid") VNone VNone VNone VNone
     = Raise (ValueError "badly formed hexadecimal UUID string").
Proof. split; vm_compute; reflexivity. Qed.
